(** * A shallow embedding of the Cosmos DB adapter for Casbin

    The development follows the Go sources of the adapter: the record
    codec ([savePolicyLine], [policyID], [loadPolicyLine]), the selector of
    [RemoveFilteredPolicy], and the adapter operations [LoadPolicy],
    [LoadFilteredPolicy], [SavePolicy], [AddPolicy], [RemovePolicy].

    Conventions.
    - A Go [string] is a sequence of bytes: it is a Rocq [string].
    - A Go [int] is a 64-bit two's complement integer: it is a [Z], and the
      additions and subtractions of the source are wrapped by [wrapInt].
    - A Go panic is the [Panic] outcome of [exec]; an [error] value is its
      message.
    - A Go [map] with string keys is a [gmap string _]; the order in which
      [range] visits a map is not fixed by the language, so it is a
      parameter of the development ([rangeOrder]).
    - The Cosmos DB container client and the meow checksum are libraries
      outside the repository: the first is an interface ([ContainerClient]),
      the second a parameter ([Checksum]). *)

From Stdlib Require Import ZArith Lia List Ascii String.
From Stdlib.Strings Require Import Byte.
From stdpp Require Import base option list gmap strings pretty.

Local Open Scope string_scope.
Local Open Scope list_scope.
Local Open Scope Z_scope.

(** ** Outcomes of Go code that may panic *)

Inductive exec (A : Type) : Type :=
| Done (x : A)
| Panic (msg : string).
Arguments Done {A} x.
Arguments Panic {A} msg.

Definition exec_bind {A B} (c : exec A) (k : A -> exec B) : exec B :=
  match c with
  | Done x => k x
  | Panic msg => Panic msg
  end.

Notation "'try!' x <- c ; k" := (exec_bind c (fun x => k))
  (at level 10, x name, c at level 100, k at level 200).

Definition completes {A} (c : exec A) : Prop := exists x, c = Done x.

(** ** Go integers and slices *)

Definition minInt : Z := - 2 ^ 63.
Definition maxInt : Z := 2 ^ 63 - 1.

(** The value of a Go [int] expression whose mathematical value is [z]. *)
Definition wrapInt (z : Z) : Z := (z + 2 ^ 63) mod 2 ^ 64 - 2 ^ 63.

Definition isInt (z : Z) : Prop := minInt <= z <= maxInt.

(** [len(s)] *)
Definition len {A} (s : list A) : Z := Z.of_nat (length s).

(** [s[i]]: the run time checks the index and panics out of range. *)
Definition index (s : list string) (i : Z) : exec string :=
  if (i <? 0) || (len s <=? i) then Panic "index out of range"
  else match s !! Z.to_nat i with
       | Some v => Done v
       | None => Panic "index out of range"
       end.

(** [s != ""] *)
Definition nonEmpty (s : string) : bool := negb (String.eqb s "").

(** [key[:1]]: the first byte of the string; panics on the empty string. *)
Definition sliceTo1 (key : string) : exec string :=
  match key with
  | EmptyString => Panic "slice bounds out of range [:1] with length 0"
  | String c _ => Done (String c EmptyString)
  end.

(** ** The data model *)

(** [CasbinRule]: the stored document. *)
Record CasbinRule : Type := mkCasbinRule {
  ID : string;
  PType : string;
  V0 : string;
  V1 : string;
  V2 : string;
  V3 : string;
  V4 : string;
  V5 : string
}.

(** The part of casbin's [model.Assertion] that the adapter touches is its
    [Policy]; [AKey], [AValue] and [ATokens] stand for the fields [Key],
    [Value] and [Tokens], which it leaves alone. *)
Record Assertion : Type := mkAssertion {
  AKey : string;
  AValue : string;
  ATokens : list string;
  Policy : list (list string)
}.

(** casbin's [model.Model] is [map[string]AssertionMap] and [AssertionMap] is
    [map[string]*Assertion]. A missing entry reads as a nil pointer. Distinct
    keys are taken to point to distinct assertions. *)
Abbreviation AssertionMap := (gmap string Assertion).
Abbreviation Model := (gmap string (gmap string Assertion)).

(** [model[sec][key]], [None] for the nil pointer. *)
Definition assertionAt (model : Model) (sec key : string) : option Assertion :=
  match model !! sec with
  | Some am => am !! key
  | None => None
  end.

(** [model[sec][key].Policy], when the assertion exists. *)
Definition rulesAt (model : Model) (sec key : string) : option (list (list string)) :=
  Policy <$> assertionAt model sec key.

(** [ast.Policy = append(ast.Policy, tokens)] *)
Definition appendPolicy (ast : Assertion) (tokens : list string) : Assertion :=
  {| AKey := AKey ast; AValue := AValue ast; ATokens := ATokens ast;
     Policy := Policy ast ++ [tokens] |}.

(** The write through the pointer [model[sec][key]]. *)
Definition storeAssertion (model : Model) (sec key : string) (ast : Assertion) : Model :=
  match model !! sec with
  | Some am => <[sec := <[key := ast]> am]> model
  | None => model
  end.

(** ** The record codec: decoding *)

(** The token scan of [loadPolicyLine]: every [goto LineEnd] leaves with the
    tokens collected so far. *)
Definition scanTokens (line : CasbinRule) : list string :=
  let tokens := [] in
  if nonEmpty (V0 line) then
    let tokens := tokens ++ [V0 line] in
    if nonEmpty (V1 line) then
      let tokens := tokens ++ [V1 line] in
      if nonEmpty (V2 line) then
        let tokens := tokens ++ [V2 line] in
        if nonEmpty (V3 line) then
          let tokens := tokens ++ [V3 line] in
          if nonEmpty (V4 line) then
            let tokens := tokens ++ [V4 line] in
            if nonEmpty (V5 line) then
              let tokens := tokens ++ [V5 line] in
              tokens
            else tokens
          else tokens
        else tokens
      else tokens
    else tokens
  else tokens.

Definition loadPolicyLine (line : CasbinRule) (model : Model) : exec Model :=
  let key := PType line in
  try! sec <- sliceTo1 key;
  let tokens := scanTokens line in
  (* LineEnd: *)
  match assertionAt model sec key with
  | None => Panic "invalid memory address or nil pointer dereference"
  | Some ast => Done (storeAssertion model sec key (appendPolicy ast tokens))
  end.

(** ** The record codec: encoding *)

(** [strings.Join(elems, sep)] *)
Definition Join (elems : list string) (sep : string) : string :=
  match elems with
  | [] => ""
  | first :: others => fold_left (fun b s => b +:+ sep +:+ s) others first
  end.

Definition hexDigit (n : N) : ascii :=
  match n with
  | 0%N => "0" | 1%N => "1" | 2%N => "2" | 3%N => "3"
  | 4%N => "4" | 5%N => "5" | 6%N => "6" | 7%N => "7"
  | 8%N => "8" | 9%N => "9" | 10%N => "a" | 11%N => "b"
  | 12%N => "c" | 13%N => "d" | 14%N => "e" | _ => "f"
  end%char.

(** [fmt.Sprintf("%x", sum)] on a byte array: two lower case hexadecimal
    digits for each byte, in order. *)
Fixpoint hexString (sum : list byte) : string :=
  match sum with
  | [] => ""
  | b :: rest =>
      let n := Byte.to_N b in
      String (hexDigit (n / 16)) (String (hexDigit (n mod 16)) (hexString rest))
  end.

Section Codec.

(** [meow.Checksum(seed, data)], 16 bytes. *)
Variable Checksum : Z -> list byte -> list byte.

Definition policyID (ptype : string) (rule : list string) : string :=
  let data := Join ([ptype] ++ rule) "," in
  let sum := Checksum 0 (list_byte_of_string data) in
  hexString sum.

(** The reads [rule[i]] of [savePolicyLine] are guarded by
    [len(rule) > i], so they are in range; [nth] reads them. *)
Definition savePolicyLine (ptype : string) (rule : list string) : CasbinRule :=
  let v0 := if 0 <? len rule then nth 0 rule "" else "" in
  let v1 := if 1 <? len rule then nth 1 rule "" else "" in
  let v2 := if 2 <? len rule then nth 2 rule "" else "" in
  let v3 := if 3 <? len rule then nth 3 rule "" else "" in
  let v4 := if 4 <? len rule then nth 4 rule "" else "" in
  let v5 := if 5 <? len rule then nth 5 rule "" else "" in
  {| ID := policyID ptype rule; PType := ptype;
     V0 := v0; V1 := v1; V2 := v2; V3 := v3; V4 := v4; V5 := v5 |}.

End Codec.

(** ** The selector of [RemoveFilteredPolicy] *)

(** One of the six blocks
    [if fieldIndex <= k && k < fieldIndex+len(fieldValues) {
       if fieldValues[k-fieldIndex] != "" { selector["vk"] = fieldValues[k-fieldIndex] } }].
    [&&] does not evaluate its right operand when the left one is false. *)
Definition slot (k : Z) (name : string) (fieldIndex : Z) (fieldValues : list string)
    (selector : gmap string string) : exec (gmap string string) :=
  if (fieldIndex <=? k) && (k <? wrapInt (fieldIndex + len fieldValues)) then
    try! v <- index fieldValues (wrapInt (k - fieldIndex));
    if nonEmpty v then
      try! v' <- index fieldValues (wrapInt (k - fieldIndex));
      Done (<[name := v']> selector)
    else Done selector
  else Done selector.

Definition buildSelector (fieldIndex : Z) (fieldValues : list string)
    : exec (gmap string string) :=
  let selector : gmap string string := ∅ in
  try! selector <- slot 0 "v0" fieldIndex fieldValues selector;
  try! selector <- slot 1 "v1" fieldIndex fieldValues selector;
  try! selector <- slot 2 "v2" fieldIndex fieldValues selector;
  try! selector <- slot 3 "v3" fieldIndex fieldValues selector;
  try! selector <- slot 4 "v4" fieldIndex fieldValues selector;
  try! selector <- slot 5 "v5" fieldIndex fieldValues selector;
  Done selector.

(** [azcosmos.QueryParameter]; the adapter binds strings only. *)
Record QueryParameter : Type := mkQueryParameter {
  Name : string;
  Value : string
}.

(** [SqlQuerySpec] of query.go. *)
Record SqlQuerySpec : Type := mkSqlQuerySpec {
  Query : string;
  Parameters : list QueryParameter
}.

(** The loop [for key, value := range selector] over the entries in the
    order in which [range] delivers them. *)
Definition buildQuery (ptype : string) (entries : list (string * string))
    : string * list QueryParameter :=
  fold_left
    (fun acc entry =>
       (fst acc +:+ " AND root." +:+ fst entry +:+ " = @" +:+ fst entry,
        snd acc ++ [{| Name := "@" +:+ fst entry; Value := snd entry |}]))
    entries
    ("SELECT * FROM root WHERE root.pType = @pType",
     [{| Name := "@pType"; Value := ptype |}]).

(** ** The Cosmos DB client *)

Definition error : Type := string.

(** An item of a result page; [json.Unmarshal] either fills a [CasbinRule]
    from it or fails. *)
Inductive Item : Type :=
| ItemDocument (line : CasbinRule)
| ItemMalformed (err : error).

Definition Unmarshal (item : Item) : error + CasbinRule :=
  match item with
  | ItemDocument line => inr line
  | ItemMalformed err => inl err
  end.

(** A pager is the sequence of outcomes of its [NextPage] calls; [More]
    holds while the sequence is not exhausted. *)
Definition Pager : Type := list (error + list Item).

(** The calls of the adapter to the container and database clients. *)
Class ContainerClient (S : Type) : Type := {
  NewQueryItemsPager : S -> string -> string -> list QueryParameter -> Pager;
  Delete : S -> option error * S;
  CreateContainer : S -> string -> option error * S;
  CreateItem : S -> string -> CasbinRule -> (error + Z) * S;
  DeleteItem : S -> string -> string -> option error * S
}.

(** The calls issued to the store, oldest first. *)
Inductive Call : Type :=
| CallQuery (query partitionKey : string) (parameters : list QueryParameter)
| CallDelete
| CallCreateContainer (id : string)
| CallCreateItem (partitionKey : string) (line : CasbinRule)
| CallDeleteItem (partitionKey id : string).

Definition destructive (c : Call) : bool :=
  match c with
  | CallQuery _ _ _ => false
  | _ => true
  end.

Record World (S : Type) : Type := mkWorld {
  client : S;
  calls : list Call
}.
Arguments mkWorld {S} client calls.
Arguments client {S} w.
Arguments calls {S} w.

(** The [adapter] struct; its client handles are the [World]. *)
Record adapter : Type := mkAdapter {
  containerName : string;
  databaseName : string;
  filtered : bool
}.

Definition setFiltered (a : adapter) (b : bool) : adapter :=
  {| containerName := containerName a; databaseName := databaseName a; filtered := b |}.

(** How a method call ends: [return nil], [return err], or a panic. *)
Inductive Ret : Type :=
| RetNil
| RetErr (err : error)
| RetPanic (msg : string).

(** The [filter interface{}] argument of [LoadFilteredPolicy]: a
    [SqlQuerySpec] value, or a value of any other dynamic type. The
    [*SqlQuerySpec] that [Q] of query.go returns is of another dynamic
    type: the type assertion [filter.(SqlQuerySpec)] fails on it. *)
Inductive Filter : Type :=
| FilterSpec (querySpec : SqlQuerySpec)
| FilterOther.

(** The inner loop over [res.Items]. *)
Fixpoint unmarshalItems (items : list Item) (lines : list CasbinRule)
    : error + list CasbinRule :=
  match items with
  | [] => inr lines
  | item :: rest =>
      match Unmarshal item with
      | inl err => inl err
      | inr line => unmarshalItems rest (lines ++ [line])
      end
  end.

(** The loop [for queryPager.More() { ... }]. *)
Fixpoint drainPager (pager : Pager) (lines : list CasbinRule)
    : error + list CasbinRule :=
  match pager with
  | [] => inr lines
  | inl err :: _ => inl err
  | inr items :: rest =>
      match unmarshalItems items lines with
      | inl err => inl err
      | inr lines' => drainPager rest lines'
      end
  end.

(** The loop [for _, line := range lines { loadPolicyLine(line, model) }];
    the model is updated in place, so a panic leaves the rules appended so
    far. *)
Fixpoint loadAllLines (lines : list CasbinRule) (model : Model) : Ret * Model :=
  match lines with
  | [] => (RetNil, model)
  | line :: rest =>
      match loadPolicyLine line model with
      | Done model' => loadAllLines rest model'
      | Panic msg => (RetPanic msg, model)
      end
  end.

(** ** The adapter *)

Section Adapter.

Variable Checksum : Z -> list byte -> list byte.

(** The order in which [range] visits the entries of a map. *)
Variable rangeOrder : forall A : Type, gmap string A -> list (string * A).
Hypothesis rangeOrder_perm :
  forall (A : Type) (m : gmap string A), rangeOrder A m ≡ₚ map_to_list m.

Context {S : Type} `{ContainerClient S}.

(** The store calls, each recorded in the log. *)
Definition queryItems (w : World S) (query partitionKey : string)
    (parameters : list QueryParameter) : Pager * World S :=
  (NewQueryItemsPager (client w) query partitionKey parameters,
   mkWorld (client w) (calls w ++ [CallQuery query partitionKey parameters])).

Definition deleteContainer (w : World S) : option error * World S :=
  let r := Delete (client w) in
  (fst r, mkWorld (snd r) (calls w ++ [CallDelete])).

Definition createContainer (w : World S) (id : string) : option error * World S :=
  let r := CreateContainer (client w) id in
  (fst r, mkWorld (snd r) (calls w ++ [CallCreateContainer id])).

Definition createItem (w : World S) (partitionKey : string) (line : CasbinRule)
    : (error + Z) * World S :=
  let r := CreateItem (client w) partitionKey line in
  (fst r, mkWorld (snd r) (calls w ++ [CallCreateItem partitionKey line])).

Definition deleteItem (w : World S) (partitionKey id : string)
    : option error * World S :=
  let r := DeleteItem (client w) partitionKey id in
  (fst r, mkWorld (snd r) (calls w ++ [CallDeleteItem partitionKey id])).

Definition dropCollection (a : adapter) (w : World S) : option error * World S :=
  match deleteContainer w with
  | (Some err, w1) => (Some err, w1)
  | (None, w1) => createContainer w1 (containerName a)
  end.

Definition LoadPolicy (a : adapter) (model : Model) (w : World S)
    : Ret * adapter * Model * World S :=
  let a := setFiltered a false in
  let loadPolicyQuery := "SELECT * FROM c" in
  let '(queryPager, w) := queryItems w loadPolicyQuery "p" [] in
  match drainPager queryPager [] with
  | inl err => (RetErr err, a, model, w)
  | inr lines =>
      let '(r, model) := loadAllLines lines model in (r, a, model, w)
  end.

Definition LoadFilteredPolicy (a : adapter) (model : Model) (filter : Filter)
    (w : World S) : Ret * adapter * Model * World S :=
  match filter with
  | FilterOther =>
      (RetPanic "interface conversion: interface {} is not cosmosadapter.SqlQuerySpec",
       a, model, w)
  | FilterSpec querySpec =>
      let a := setFiltered a true in
      let '(queryPager, w) :=
        queryItems w (Query querySpec) "p" (Parameters querySpec) in
      match drainPager queryPager [] with
      | inl err => (RetErr err, a, model, w)
      | inr lines =>
          let '(r, model) := loadAllLines lines model in (r, a, model, w)
      end
  end.

Definition IsFiltered (a : adapter) : bool := filtered a.

(** [json.Marshal] of a struct of strings does not fail, so [save] goes on
    to [CreateItem] with the record. The record stands for its JSON
    document: the document holds the strings of the record as they are when
    they are valid UTF-8, and U+FFFD in place of every byte that is not. *)
Definition save (w : World S) (policy : CasbinRule) : option error * World S :=
  match createItem w (PType policy) policy with
  | (inl err, w1) => (Some err, w1)
  | (inr statusCode, w1) =>
      if negb (statusCode =? 201)
      then (Some ("Unable to save policy: unexpected status code " +:+ pretty statusCode), w1)
      else (None, w1)
  end.

(** The two loops that collect the lines of one section of the model;
    [model[sec]] of a missing section is the nil map, which has no
    entries. *)
Definition sectionLines (model : Model) (sec : string) : list CasbinRule :=
  let entries := match model !! sec with
                 | Some am => rangeOrder Assertion am
                 | None => []
                 end in
  flat_map (fun entry => map (savePolicyLine Checksum (fst entry)) (Policy (snd entry)))
           entries.

Fixpoint saveLines (lines : list CasbinRule) (w : World S) : option error * World S :=
  match lines with
  | [] => (None, w)
  | line :: rest =>
      match save w line with
      | (Some err, w1) => (Some err, w1)
      | (None, w1) => saveLines rest w1
      end
  end.

Definition retOf (e : option error) : Ret :=
  match e with
  | Some err => RetErr err
  | None => RetNil
  end.

Definition SavePolicy (a : adapter) (model : Model) (w : World S) : Ret * World S :=
  if filtered a then (RetErr "cannot save a filtered policy", w)
  else
    match dropCollection a w with
    | (Some err, w1) => (RetErr err, w1)
    | (None, w1) =>
        let lines := [] ++ sectionLines model "p" in
        let lines := lines ++ sectionLines model "g" in
        let '(e, w2) := saveLines lines w1 in (retOf e, w2)
    end.

Definition AddPolicy (sec ptype : string) (rule : list string) (w : World S)
    : Ret * World S :=
  let policy := savePolicyLine Checksum ptype rule in
  let '(e, w1) := save w policy in (retOf e, w1).

Definition RemovePolicy (sec ptype : string) (rule : list string) (w : World S)
    : Ret * World S :=
  let policy := savePolicyLine Checksum ptype rule in
  let '(e, w1) := deleteItem w (PType policy) (ID policy) in (retOf e, w1).

Fixpoint deletePolicies (policies : list CasbinRule) (w : World S)
    : option error * World S :=
  match policies with
  | [] => (None, w)
  | policy :: rest =>
      match deleteItem w (PType policy) (ID policy) with
      | (Some err, w1) => (Some err, w1)
      | (None, w1) => deletePolicies rest w1
      end
  end.

Definition RemoveFilteredPolicy (sec ptype : string) (fieldIndex : Z)
    (fieldValues : list string) (w : World S) : Ret * World S :=
  match buildSelector fieldIndex fieldValues with
  | Panic msg => (RetPanic msg, w)
  | Done selector =>
      let '(query, parameters) := buildQuery ptype (rangeOrder string selector) in
      let '(queryPager, w1) := queryItems w query ptype parameters in
      match drainPager queryPager [] with
      | inl err => (RetErr err, w1)
      | inr policies =>
          let '(e, w2) := deletePolicies policies w1 in (retOf e, w2)
      end
  end.

End Adapter.

(** ** An in-memory container

    A container partitioned by [/pType], as [createCollectionIfNotExist] and
    [dropCollection] create it: a query is answered from the logical
    partition of its partition key only. It evaluates the conjunctions of
    equalities that the adapter builds, through their parameters. When it is
    not [online] every call fails. *)

Record MemStore : Type := mkMemStore {
  docs : list CasbinRule;
  online : bool
}.

Definition fieldOf (name : string) (d : CasbinRule) : option string :=
  if String.eqb name "@pType" then Some (PType d)
  else if String.eqb name "@v0" then Some (V0 d)
  else if String.eqb name "@v1" then Some (V1 d)
  else if String.eqb name "@v2" then Some (V2 d)
  else if String.eqb name "@v3" then Some (V3 d)
  else if String.eqb name "@v4" then Some (V4 d)
  else if String.eqb name "@v5" then Some (V5 d)
  else None.

Definition satisfies (parameters : list QueryParameter) (d : CasbinRule) : bool :=
  forallb (fun p => match fieldOf (Name p) d with
                    | Some v => String.eqb v (Value p)
                    | None => true
                    end) parameters.

Definition unavailable : error := "service unavailable".

Definition memQuery (s : MemStore) (query partitionKey : string)
    (parameters : list QueryParameter) : Pager :=
  if online s
  then [inr (map ItemDocument
               (List.filter (fun d => String.eqb (PType d) partitionKey && satisfies parameters d)
                            (docs s)))]
  else [inl unavailable].

Definition memDelete (s : MemStore) : option error * MemStore :=
  if online s then (None, {| docs := []; online := true |}) else (Some unavailable, s).

Definition memCreateContainer (s : MemStore) (id : string) : option error * MemStore :=
  if online s then (None, s) else (Some unavailable, s).

Definition memCreateItem (s : MemStore) (partitionKey : string) (line : CasbinRule)
    : (error + Z) * MemStore :=
  if online s then
    if negb (String.eqb partitionKey (PType line)) then (inl "400 Bad Request", s)
    else if existsb (fun d => String.eqb (PType d) partitionKey && String.eqb (ID d) (ID line))
                    (docs s)
    then (inl "409 Conflict", s)
    else (inr 201, {| docs := docs s ++ [line]; online := true |})
  else (inl unavailable, s).

Definition memDeleteItem (s : MemStore) (partitionKey id : string)
    : option error * MemStore :=
  if online s then
    if existsb (fun d => String.eqb (PType d) partitionKey && String.eqb (ID d) id) (docs s)
    then (None,
          {| docs := List.filter
                       (fun d => negb (String.eqb (PType d) partitionKey && String.eqb (ID d) id))
                       (docs s);
             online := true |})
    else (Some "404 Not Found", s)
  else (Some unavailable, s).

#[export] Instance memStore_client : ContainerClient MemStore := {
  NewQueryItemsPager := memQuery;
  Delete := memDelete;
  CreateContainer := memCreateContainer;
  CreateItem := memCreateItem;
  DeleteItem := memDeleteItem
}.

(** [range] in the order of [map_to_list]. *)
Definition listOrder (A : Type) (m : gmap string A) : list (string * A) :=
  map_to_list m.

(** ** Notions of the specification and fixtures *)

(** The six value fields of a record, in order. *)
Definition fields (line : CasbinRule) : list string :=
  [V0 line; V1 line; V2 line; V3 line; V4 line; V5 line].

(** The longest prefix whose elements all satisfy [p]. *)
Fixpoint takeWhile {A} (p : A -> bool) (l : list A) : list A :=
  match l with
  | [] => []
  | x :: rest => if p x then x :: takeWhile p rest else []
  end.

(** The first character of a policy type: the section key. *)
Definition firstChar (s : string) : string := substring 0 1 s.

(** [policyType + "," + value0 + "," + value1 + ...] *)
Definition idString (policyType : string) (values : list string) : string :=
  policyType +:+ fold_right (fun v acc => "," +:+ v +:+ acc) "" values.

(** A model with the sections of a plain RBAC configuration and no rule
    loaded. *)
Definition rbacModel : Model :=
  {[ "p" := {[ "p" := mkAssertion "p" "sub, obj, act" ["p_sub"; "p_obj"; "p_act"] [] ]};
     "g" := {[ "g" := mkAssertion "g" "_, _" [] [] ]} ]}.

(** The record of the truncation example: a gap at [v1]. *)
Definition gapLine : CasbinRule :=
  {| ID := "1"; PType := "p"; V0 := "a"; V1 := ""; V2 := "b";
     V3 := ""; V4 := ""; V5 := "" |}.

(** A record with no value at all. *)
Definition blankLine : CasbinRule :=
  {| ID := "2"; PType := "p"; V0 := ""; V1 := ""; V2 := "";
     V3 := ""; V4 := ""; V5 := "" |}.

(** A record without policy type. *)
Definition untypedLine : CasbinRule :=
  {| ID := "3"; PType := ""; V0 := "alice"; V1 := "data1"; V2 := "read";
     V3 := ""; V4 := ""; V5 := "" |}.

(** The six slots of the filter and the fields they select on. *)
Definition slotNames : list (Z * string) :=
  [(0, "v0"); (1, "v1"); (2, "v2"); (3, "v3"); (4, "v4"); (5, "v5")].

(** Slot [k] takes part in the filter with value [v]: [k] is in the window
    that starts at [fieldIndex], and the value given for it is [v], which is
    not empty. The arithmetic is that of the integers, without wrap-around. *)
Definition participates (k fieldIndex : Z) (fieldValues : list string) (v : string) : Prop :=
  fieldIndex <= k < fieldIndex + len fieldValues /\
  fieldValues !! Z.to_nat (k - fieldIndex) = Some v /\
  v <> "".

(** The value, if any, with which slot [k] takes part. *)
Definition slotValue (k fieldIndex : Z) (fieldValues : list string) : option string :=
  if (fieldIndex <=? k) && (k <? fieldIndex + len fieldValues) then
    match fieldValues !! Z.to_nat (k - fieldIndex) with
    | Some v => if nonEmpty v then Some v else None
    | None => None
    end
  else None.

Definition applySlot (name : string) (o : option string) (selector : gmap string string)
    : gmap string string :=
  match o with
  | Some v => <[name := v]> selector
  | None => selector
  end.

(** The text and the parameter that one selector entry adds to the query. *)
Definition predicateText (entry : string * string) : string :=
  " AND root." +:+ fst entry +:+ " = @" +:+ fst entry.

Definition parameterOf (entry : string * string) : QueryParameter :=
  {| Name := "@" +:+ fst entry; Value := snd entry |}.

Definition baseQuery : string := "SELECT * FROM root WHERE root.pType = @pType".

Definition concatStrings (l : list string) : string :=
  fold_right String.append "" l.

(** A model holding one permission rule and one role assignment. *)
Definition aliceModel : Model :=
  {[ "p" := {[ "p" := mkAssertion "p" "sub, obj, act" ["p_sub"; "p_obj"; "p_act"]
                        [["alice"; "data1"; "read"]] ]};
     "g" := {[ "g" := mkAssertion "g" "_, _" [] [["alice"; "admin"]] ]} ]}.

(** A freshly constructed adapter ([NewAdapterFromClient] clears the flag). *)
Definition freshAdapter : adapter :=
  {| containerName := "casbin_rule"; databaseName := "casbin"; filtered := false |}.

(** An empty container that answers, and one that is out of reach. *)
Definition emptyWorld : World MemStore :=
  mkWorld {| docs := []; online := true |} [].

Definition offlineWorld : World MemStore :=
  mkWorld {| docs := []; online := false |} [].

(** A filter that selects the rules of alice. *)
Definition aliceFilter : Filter :=
  FilterSpec {| Query := "SELECT * FROM c WHERE c.v0 = @v0";
                Parameters := [{| Name := "@v0"; Value := "alice" |}] |}.

(** A stand-in for the checksum in examples: sixteen bytes, the first one
    the length of the data modulo 256. *)
Definition lengthChecksum (seed : Z) (data : list byte) : list byte :=
  match Byte.of_N (N.of_nat (length data) mod 256) with
  | Some b => b :: repeat x00%byte 15
  | None => repeat x00%byte 16
  end.

(** A record that [loadPolicyLine] can decode into the model: its policy
    type is not empty and has an assertion under its first character. *)
Definition decodable (model : Model) (line : CasbinRule) : Prop :=
  PType line <> "" /\
  is_Some (assertionAt model (firstChar (PType line)) (PType line)).

(** The value of a lower case hexadecimal digit. *)
Definition hexValue (c : ascii) : option N :=
  match c with
  | "0" => Some 0%N | "1" => Some 1%N | "2" => Some 2%N | "3" => Some 3%N
  | "4" => Some 4%N | "5" => Some 5%N | "6" => Some 6%N | "7" => Some 7%N
  | "8" => Some 8%N | "9" => Some 9%N | "a" => Some 10%N | "b" => Some 11%N
  | "c" => Some 12%N | "d" => Some 13%N | "e" => Some 14%N | "f" => Some 15%N
  | _ => None
  end%char.

(** The byte written as the two digits [hi], [lo]. *)
Definition unhexByte (hi lo : ascii) : option byte :=
  match hexValue hi, hexValue lo with
  | Some h, Some l => Byte.of_N (16 * h + l)
  | _, _ => None
  end.

(** The bytes that a string of hexadecimal digit pairs stands for. *)
Fixpoint unhexString (s : string) : option (list byte) :=
  match s with
  | EmptyString => Some []
  | String hi (String lo rest) =>
      match unhexByte hi lo, unhexString rest with
      | Some b, Some bs => Some (b :: bs)
      | _, _ => None
      end
  | String _ EmptyString => None
  end.

(** The records of one policy type among the fetched ones, in order. *)
Definition linesOf (key : string) (lines : list CasbinRule) : list CasbinRule :=
  List.filter (fun line => String.eqb (PType line) key) lines.

(** A result page that holds the given documents. *)
Definition pageOf (documents : list CasbinRule) : error + list Item :=
  inr (map ItemDocument documents).

(** A container that holds the two records of [aliceModel]. *)
Definition aliceWorld : World MemStore :=
  mkWorld
    {| docs := [ {| ID := "a1"; PType := "p"; V0 := "alice"; V1 := "data1"; V2 := "read";
                    V3 := ""; V4 := ""; V5 := "" |};
                 {| ID := "a2"; PType := "g"; V0 := "alice"; V1 := "admin"; V2 := "";
                    V3 := ""; V4 := ""; V5 := "" |} ];
       online := true |}
    [].

(** The store calls that create and delete one record, each in the
    partition of the record's policy type. *)
Definition createCall (line : CasbinRule) : Call := CallCreateItem (PType line) line.

Definition deleteCall (policy : CasbinRule) : Call :=
  CallDeleteItem (PType policy) (ID policy).

(** What identifies a record in the container: its partition and its id. *)
Definition recordKey (line : CasbinRule) : string * string := (PType line, ID line).

(** An in-memory container that answers, with the given documents and log. *)
Definition memWorld (documents : list CasbinRule) (log : list Call) : World MemStore :=
  mkWorld {| docs := documents; online := true |} log.

(** ** Construction of the adapter *)

(** An error of the SDK as the constructor sees it: an
    [*azcore.ResponseError] with its status code, or an error of another
    dynamic type; both have a message. *)
Inductive SdkError : Type :=
| ResponseError (statusCode : Z) (message : string)
| OtherError (message : string).

Definition errorMessage (err : SdkError) : string :=
  match err with
  | ResponseError _ message => message
  | OtherError message => message
  end.

(** [Options], without the embedded client options of the SDK. *)
Record Options : Type := mkOptions {
  DatabaseName : string;
  ContainerName : string
}.

(** The calls of the constructor to the account, database and container
    clients. *)
Class AccountClient (S : Type) : Type := {
  NewDatabase : S -> string -> option SdkError;
  NewContainer : S -> string -> string -> option SdkError;
  ReadDatabase : S -> option SdkError;
  CreateDatabase : S -> string -> option SdkError * S;
  ReadContainer : S -> option SdkError;
  CreatePartitionedContainer : S -> string -> list string -> option SdkError * S
}.

Definition StatusNotFound : Z := 404.

Section Construction.

Context {S : Type} `{AccountClient S}.

Definition createDatabaseIfNotExist (a : adapter) (s : S) : exec S :=
  match ReadDatabase s with
  | None => Done s
  | Some (OtherError _) =>
      Panic "interface conversion: error is not *azcore.ResponseError"
  | Some (ResponseError statusCode message) =>
      if statusCode =? StatusNotFound then
        match CreateDatabase s (databaseName a) with
        | (Some createDbErr, _) =>
            Panic ("Creating cosmos database caused error: " +:+ errorMessage createDbErr)
        | (None, s') => Done s'
        end
      else Panic ("Reading cosmos database caused error: " +:+ message)
  end.

Definition createCollectionIfNotExist (a : adapter) (s : S) : exec S :=
  match ReadContainer s with
  | None => Done s
  | Some (OtherError _) =>
      Panic "interface conversion: error is not *azcore.ResponseError"
  | Some (ResponseError statusCode message) =>
      if statusCode =? StatusNotFound then
        match CreatePartitionedContainer s (containerName a) ["/pType"] with
        | (Some err, _) =>
            Panic ("Creating cosmos containerClient caused error: " +:+ errorMessage err)
        | (None, s') => Done s'
        end
      else Panic ("Reading cosmos containerClient caused error: " +:+ message)
  end.

Definition NewAdapterFromClient (options : Options) (s : S) : exec (adapter * S) :=
  let a := {| containerName := ContainerName options;
              databaseName := DatabaseName options;
              filtered := false |} in
  match NewDatabase s (DatabaseName options) with
  | Some err =>
      Panic ("Creating new database with id " +:+ DatabaseName options +:+
             " caused error: " +:+ errorMessage err)
  | None =>
      match NewContainer s (DatabaseName options) (ContainerName options) with
      | Some err =>
          Panic ("Creating container with name " +:+ ContainerName options +:+
                 " caused error: " +:+ errorMessage err)
      | None =>
          try! s1 <- createDatabaseIfNotExist a s;
          try! s2 <- createCollectionIfNotExist a s1;
          let a := setFiltered a false in
          Done (a, s2)
      end
  end.

End Construction.

(** An account in memory: the database and the container exist or not, and
    while [readFault] is set every read fails with it. *)
Record MemAccount : Type := mkMemAccount {
  hasDatabase : option string;
  hasContainer : option (string * list string);
  readFault : option SdkError
}.

Definition idRequired (id : string) : option SdkError :=
  if String.eqb id "" then Some (OtherError "id is required") else None.

Definition memReadDatabase (s : MemAccount) : option SdkError :=
  match readFault s with
  | Some err => Some err
  | None =>
      match hasDatabase s with
      | Some _ => None
      | None => Some (ResponseError 404 "Not Found")
      end
  end.

Definition memCreateDatabase (s : MemAccount) (id : string) : option SdkError * MemAccount :=
  match hasDatabase s with
  | Some _ => (Some (ResponseError 409 "Conflict"), s)
  | None => (None, {| hasDatabase := Some id; hasContainer := None;
                      readFault := readFault s |})
  end.

Definition memReadContainer (s : MemAccount) : option SdkError :=
  match readFault s with
  | Some err => Some err
  | None =>
      match hasDatabase s, hasContainer s with
      | Some _, Some _ => None
      | _, _ => Some (ResponseError 404 "Not Found")
      end
  end.

Definition memCreatePartitionedContainer (s : MemAccount) (id : string)
    (paths : list string) : option SdkError * MemAccount :=
  match hasDatabase s, hasContainer s with
  | Some _, None =>
      (None, {| hasDatabase := hasDatabase s; hasContainer := Some (id, paths);
                readFault := readFault s |})
  | Some _, Some _ => (Some (ResponseError 409 "Conflict"), s)
  | None, _ => (Some (ResponseError 404 "Not Found"), s)
  end.

#[export] Instance memAccount_client : AccountClient MemAccount := {
  NewDatabase := fun _ id => idRequired id;
  NewContainer := fun _ _ id => idRequired id;
  ReadDatabase := memReadDatabase;
  CreateDatabase := memCreateDatabase;
  ReadContainer := memReadContainer;
  CreatePartitionedContainer := memCreatePartitionedContainer
}.

(** An account with neither database nor container, and one whose reads
    fail with an error that is not a response of the service. *)
Definition emptyAccount : MemAccount :=
  {| hasDatabase := None; hasContainer := None; readFault := None |}.

Definition unreachableAccount : MemAccount :=
  {| hasDatabase := None; hasContainer := None;
     readFault := Some (OtherError "dial tcp: connection refused") |}.

Definition defaultOptions : Options :=
  {| DatabaseName := "casbin"; ContainerName := "casbin_rule" |}.

(** ** Notions used by the properties of the store calls *)

(** The hexadecimal digest of a byte sequence, as the specification has it:
    each byte is written as its high and its low half, each half as the
    character at that position of the lower case hexadecimal alphabet. *)
Definition hexAlphabet : string := "0123456789abcdef".

Definition hexChar (n : N) : ascii :=
  match String.get (N.to_nat n) hexAlphabet with
  | Some c => c
  | None => "?"%char
  end.

Definition hexDigest (bytes : list byte) : string :=
  fold_right
    (fun b digest =>
       String (hexChar (Byte.to_N b / 16)) (String (hexChar (Byte.to_N b mod 16)) digest))
    "" bytes.

(** Well-formed UTF-8 (RFC 3629), on the codes of the bytes. *)
Definition continuation (b : N) : bool := ((128 <=? b) && (b <=? 191))%N.

Fixpoint validBytes (l : list N) : bool :=
  match l with
  | [] => true
  | b0 :: r0 =>
      if (b0 <? 128)%N then validBytes r0
      else
        match r0 with
        | [] => false
        | b1 :: r1 =>
            if ((194 <=? b0) && (b0 <=? 223))%N then continuation b1 && validBytes r1
            else
              match r1 with
              | [] => false
              | b2 :: r2 =>
                  if (b0 =? 224)%N then
                    ((160 <=? b1) && (b1 <=? 191))%N && continuation b2 && validBytes r2
                  else if (((225 <=? b0) && (b0 <=? 236)) || ((238 <=? b0) && (b0 <=? 239)))%N then
                    continuation b1 && continuation b2 && validBytes r2
                  else if (b0 =? 237)%N then
                    ((128 <=? b1) && (b1 <=? 159))%N && continuation b2 && validBytes r2
                  else
                    match r2 with
                    | [] => false
                    | b3 :: r3 =>
                        if (b0 =? 240)%N then
                          ((144 <=? b1) && (b1 <=? 191))%N && continuation b2 &&
                          continuation b3 && validBytes r3
                        else if ((241 <=? b0) && (b0 <=? 243))%N then
                          continuation b1 && continuation b2 && continuation b3 &&
                          validBytes r3
                        else if (b0 =? 244)%N then
                          ((128 <=? b1) && (b1 <=? 143))%N && continuation b2 &&
                          continuation b3 && validBytes r3
                        else false
                    end
              end
        end
  end.

(** The strings that a JSON document holds unchanged. *)
Definition validUTF8 (s : string) : bool :=
  validBytes (map N_of_ascii (list_ascii_of_string s)).

Section StoreRuns.

Context {S : Type} `{ContainerClient S}.

(** Creating the records one after the other from the state [s], every
    [CreateItem] answers with status 201; and the state of the store after
    these calls. *)
Fixpoint createsSucceed (lines : list CasbinRule) (s : S) : Prop :=
  match lines with
  | [] => True
  | line :: rest =>
      (CreateItem s (PType line) line).1 = inr 201 /\
      createsSucceed rest (CreateItem s (PType line) line).2
  end.

Fixpoint clientAfterCreates (lines : list CasbinRule) (s : S) : S :=
  match lines with
  | [] => s
  | line :: rest => clientAfterCreates rest (CreateItem s (PType line) line).2
  end.

(** The same for deleting the records by partition and identifier. *)
Fixpoint deletesSucceed (policies : list CasbinRule) (s : S) : Prop :=
  match policies with
  | [] => True
  | policy :: rest =>
      (DeleteItem s (PType policy) (ID policy)).1 = None /\
      deletesSucceed rest (DeleteItem s (PType policy) (ID policy)).2
  end.

Fixpoint clientAfterDeletes (policies : list CasbinRule) (s : S) : S :=
  match policies with
  | [] => s
  | policy :: rest => clientAfterDeletes rest (DeleteItem s (PType policy) (ID policy)).2
  end.

End StoreRuns.

(** A model that holds the same permission rule twice, and then another. *)
Definition twiceModel : Model :=
  {[ "p" := {[ "p" := mkAssertion "p" "sub, obj, act" ["p_sub"; "p_obj"; "p_act"]
                        [["alice"; "data1"; "read"]; ["alice"; "data1"; "read"];
                         ["bob"; "data2"; "write"]] ]} ]}.

(** A container with two records of alice in partition ["p"]. *)
Definition twoRecordsWorld : World MemStore :=
  memWorld
    [ {| ID := "a1"; PType := "p"; V0 := "alice"; V1 := "data1"; V2 := "read";
         V3 := ""; V4 := ""; V5 := "" |};
      {| ID := "a3"; PType := "p"; V0 := "alice"; V1 := "data2"; V2 := "write";
         V3 := ""; V4 := ""; V5 := "" |} ]
    [].

(** * Properties *)

(** ** Strings and Go integers *)

Lemma nonEmpty_true (s : string) : nonEmpty s = true <-> s <> "".
Proof.
  unfold nonEmpty. rewrite negb_true_iff. apply String.eqb_neq.
Qed.

Lemma nonEmpty_false (s : string) : nonEmpty s = false <-> s = "".
Proof.
  unfold nonEmpty. rewrite negb_false_iff. apply String.eqb_eq.
Qed.

Lemma append_cons (c : ascii) (s t : string) : String c s +:+ t = String c (s +:+ t).
Proof. reflexivity. Qed.

Lemma append_assoc (s t u : string) : (s +:+ t) +:+ u = s +:+ (t +:+ u).
Proof.
  induction s as [|c s IH]; [reflexivity|].
  rewrite !append_cons. now rewrite IH.
Qed.

Lemma sliceTo1_nonempty (key : string) :
  key <> "" -> sliceTo1 key = Done (firstChar key).
Proof.
  destruct key as [|c rest]; [congruence|]. now destruct rest.
Qed.

Lemma sliceTo1_empty (key : string) (sec : string) :
  sliceTo1 key = Done sec -> key <> "" /\ sec = firstChar key.
Proof.
  destruct key as [|c rest]; simpl; [discriminate|].
  intros [= <-]. split; [discriminate | now destruct rest].
Qed.

(** ** The model *)

Lemma assertionAt_storeAssertion (model : Model) (sec key : string) (ast ast' : Assertion) :
  assertionAt model sec key = Some ast ->
  assertionAt (storeAssertion model sec key ast') sec key = Some ast'.
Proof.
  unfold assertionAt, storeAssertion.
  destruct (model !! sec) as [am|] eqn:Hsec; [|discriminate].
  intros _. rewrite lookup_insert_eq. apply lookup_insert_eq.
Qed.

Lemma assertionAt_storeAssertion_other (model : Model) (sec key sec' key' : string)
    (ast' : Assertion) :
  (sec, key) <> (sec', key') ->
  assertionAt (storeAssertion model sec key ast') sec' key' = assertionAt model sec' key'.
Proof.
  intros Hne. unfold assertionAt, storeAssertion.
  destruct (model !! sec) as [am|] eqn:Hsec; [|reflexivity].
  destruct (decide (sec = sec')) as [<-|Hs].
  - rewrite lookup_insert_eq, Hsec.
    apply lookup_insert_ne. congruence.
  - now rewrite lookup_insert_ne.
Qed.

(** ** Decoding *)

Lemma scanTokens_takeWhile (line : CasbinRule) :
  scanTokens line = takeWhile nonEmpty (fields line).
Proof.
  unfold scanTokens, fields. simpl.
  repeat (destruct (nonEmpty _); [|reflexivity]). reflexivity.
Qed.

Lemma scanTokens_blank (line : CasbinRule) : V0 line = "" -> scanTokens line = [].
Proof.
  intros H0. unfold scanTokens. now rewrite H0.
Qed.

Lemma loadPolicyLine_done (line : CasbinRule) (model : Model) (ast : Assertion) :
  PType line <> "" ->
  assertionAt model (firstChar (PType line)) (PType line) = Some ast ->
  loadPolicyLine line model =
  Done (storeAssertion model (firstChar (PType line)) (PType line)
          (appendPolicy ast (scanTokens line))).
Proof.
  intros Hkey Hast. unfold loadPolicyLine.
  rewrite (sliceTo1_nonempty _ Hkey). simpl. now rewrite Hast.
Qed.

Lemma loadPolicyLine_rules (line : CasbinRule) (model : Model) (ast : Assertion) :
  PType line <> "" ->
  assertionAt model (firstChar (PType line)) (PType line) = Some ast ->
  exists model',
    loadPolicyLine line model = Done model' /\
    rulesAt model' (firstChar (PType line)) (PType line) =
    Some (Policy ast ++ [scanTokens line]).
Proof.
  intros Hkey Hast. eexists. split.
  - apply (loadPolicyLine_done _ _ _ Hkey Hast).
  - unfold rulesAt. now rewrite (assertionAt_storeAssertion _ _ _ _ _ Hast).
Qed.

Lemma loadPolicyLine_completes_inv (line : CasbinRule) (model : Model) :
  completes (loadPolicyLine line model) ->
  PType line <> "" /\
  is_Some (assertionAt model (firstChar (PType line)) (PType line)).
Proof.
  intros [model' Hrun]. unfold loadPolicyLine in Hrun.
  destruct (sliceTo1 (PType line)) as [sec|msg] eqn:Hsec; [|discriminate].
  apply sliceTo1_empty in Hsec as [Hkey ->]. simpl in Hrun.
  split; [exact Hkey|].
  destruct (assertionAt model _ _) as [ast|]; [eauto | discriminate].
Qed.

(** C3: the scan of [loadPolicyLine] goes through [v0 .. v5] in order and
    keeps the fields up to, and not including, the first empty one, whatever
    comes after it; the record with [v0 = "a"], [v1 = ""], [v2 = "b"] and the
    rest empty decodes to the rule [["a"]], and ["b"] is dropped. *)
Theorem loadPolicyLine_stops_at_first_empty :
  (forall line : CasbinRule, scanTokens line = takeWhile nonEmpty (fields line)) /\
  scanTokens gapLine = ["a"] /\
  (exists model',
     loadPolicyLine gapLine rbacModel = Done model' /\
     rulesAt model' "p" "p" = Some [["a"]]).
Proof.
  split; [exact scanTokens_takeWhile|].
  split; [reflexivity|].
  destruct (loadPolicyLine_rules gapLine rbacModel
              (mkAssertion "p" "sub, obj, act" ["p_sub"; "p_obj"; "p_act"] []))
    as (model' & Hrun & Hrules).
  - discriminate.
  - reflexivity.
  - exists model'. split; [exact Hrun | exact Hrules].
Qed.

(** C1, as the code has it: when decoding completes, the decoded tuple is
    appended to the rule list of the record's policy type whether it is
    empty or not; a record whose [v0] is empty appends the empty tuple, so
    the rule list grows by one empty rule. *)
Theorem loadPolicyLine_appends_every_tuple
    (line : CasbinRule) (model : Model) (ast : Assertion) :
  PType line <> "" ->
  assertionAt model (firstChar (PType line)) (PType line) = Some ast ->
  exists model',
    loadPolicyLine line model = Done model' /\
    rulesAt model' (firstChar (PType line)) (PType line) =
    Some (Policy ast ++ [scanTokens line]) /\
    (V0 line = "" ->
     rulesAt model' (firstChar (PType line)) (PType line) = Some (Policy ast ++ [[]])).
Proof.
  intros Hkey Hast.
  destruct (loadPolicyLine_rules line model ast Hkey Hast) as (model' & Hrun & Hrules).
  exists model'. repeat split; try assumption.
  intros H0. now rewrite Hrules, (scanTokens_blank _ H0).
Qed.

Lemma loadPolicyLine_appends_every_tuple_witness :
  exists model',
    loadPolicyLine blankLine rbacModel = Done model' /\
    rulesAt model' "p" "p" = Some [[]].
Proof.
  destruct (loadPolicyLine_appends_every_tuple blankLine rbacModel
              (mkAssertion "p" "sub, obj, act" ["p_sub"; "p_obj"; "p_act"] []))
    as (model' & Hrun & _ & Hblank).
  - discriminate.
  - reflexivity.
  - exists model'. split; [exact Hrun | exact (Hblank eq_refl)].
Defined.

(** C1 fails as stated: decoding a record whose [v0] is empty changes the
    rule list of its policy type. *)
Lemma loadPolicyLine_blank_changes_rules :
  ~ (forall (line : CasbinRule) (model model' : Model),
       V0 line = "" ->
       loadPolicyLine line model = Done model' ->
       rulesAt model' (firstChar (PType line)) (PType line) =
       rulesAt model (firstChar (PType line)) (PType line)).
Proof.
  intros Hclaim.
  destruct (loadPolicyLine_rules blankLine rbacModel
              (mkAssertion "p" "sub, obj, act" ["p_sub"; "p_obj"; "p_act"] []))
    as (model' & Hrun & Hrules); [discriminate | reflexivity |].
  specialize (Hclaim blankLine rbacModel model' eq_refl Hrun).
  rewrite Hrules in Hclaim. discriminate Hclaim.
Qed.

(** C8, as the code has it: decoding completes without a panic for every
    record, with contiguous fields or not, whose policy type is not empty
    and has an assertion in the model under its first character. *)
Theorem loadPolicyLine_completes (line : CasbinRule) (model : Model) :
  PType line <> "" ->
  is_Some (assertionAt model (firstChar (PType line)) (PType line)) ->
  completes (loadPolicyLine line model).
Proof.
  intros Hkey [ast Hast]. eexists. apply (loadPolicyLine_done _ _ _ Hkey Hast).
Qed.

Lemma loadPolicyLine_completes_witness : completes (loadPolicyLine gapLine rbacModel).
Proof.
  apply (loadPolicyLine_completes gapLine rbacModel).
  - discriminate.
  - eexists. reflexivity.
Defined.

(** C8 fails as stated: decoding a record whose policy type is empty
    panics. *)
Lemma loadPolicyLine_untyped_panics :
  loadPolicyLine untypedLine rbacModel =
  Panic "slice bounds out of range [:1] with length 0" /\
  ~ (forall (line : CasbinRule) (model : Model), completes (loadPolicyLine line model)).
Proof.
  split; [reflexivity|].
  intros Hclaim. destruct (Hclaim untypedLine rbacModel) as [model' Hrun].
  discriminate Hrun.
Qed.

(** ** Encoding *)

Lemma Join_cons (first : string) (others : list string) (sep : string) :
  Join (first :: others) sep =
  first +:+ fold_right (fun v acc => sep +:+ v +:+ acc) "" others.
Proof.
  unfold Join. revert first.
  induction others as [|v others IH]; intros first; simpl.
  - induction first as [|c first IHf]; [reflexivity|].
    rewrite append_cons. now rewrite <- IHf.
  - rewrite IH. now rewrite !append_assoc.
Qed.

Lemma guarded_nth (k : nat) (rule : list string) :
  (if Z.of_nat k <? len rule then nth k rule "" else "") = nth k rule "".
Proof.
  destruct (Z.ltb_spec (Z.of_nat k) (len rule)) as [Hlt|Hge]; [reflexivity|].
  symmetry. apply nth_overflow. unfold len in Hge. lia.
Qed.

Section CodecProperties.

Variable Checksum : Z -> list byte -> list byte.

Lemma scanTokens_savePolicyLine (ptype : string) (rule : list string) :
  Forall (fun v => v <> "") rule ->
  (length rule <= 6)%nat ->
  scanTokens (savePolicyLine Checksum ptype rule) = rule.
Proof.
  intros Hall Hlen.
  do 7 (destruct rule as [|? rule];
        [ repeat match goal with
                 | Hf : Forall _ (_ :: _) |- _ =>
                     apply Forall_cons in Hf as [?%nonEmpty_true ?]
                 end;
          unfold scanTokens; simpl;
          repeat match goal with
                 | Hn : nonEmpty _ = true |- _ => rewrite Hn; clear Hn
                 end;
          reflexivity
        | ]).
  simpl in Hlen. lia.
Qed.

(** C6, as the code has it: for a policy type that is not empty and has an
    assertion in the model, and a rule of at most six values, none of them
    empty, decoding the encoded record appends exactly the rule to the rule
    list of the policy type, in the section of its first character. *)
Theorem loadPolicyLine_savePolicyLine
    (ptype : string) (rule : list string) (model : Model) (ast : Assertion) :
  ptype <> "" ->
  Forall (fun v => v <> "") rule ->
  (length rule <= 6)%nat ->
  assertionAt model (firstChar ptype) ptype = Some ast ->
  scanTokens (savePolicyLine Checksum ptype rule) = rule /\
  exists model',
    loadPolicyLine (savePolicyLine Checksum ptype rule) model = Done model' /\
    rulesAt model' (firstChar ptype) ptype = Some (Policy ast ++ [rule]).
Proof.
  intros Hkey Hall Hlen Hast.
  pose proof (scanTokens_savePolicyLine ptype rule Hall Hlen) as Hscan.
  split; [exact Hscan|].
  destruct (loadPolicyLine_rules (savePolicyLine Checksum ptype rule) model ast)
    as (model' & Hrun & Hrules); [exact Hkey | exact Hast |].
  exists model'. split; [exact Hrun|].
  cbn [PType savePolicyLine] in Hrules. now rewrite Hrules, Hscan.
Qed.

End CodecProperties.

Lemma loadPolicyLine_savePolicyLine_witness :
  scanTokens (savePolicyLine lengthChecksum "p" ["alice"; "data1"; "read"]) =
  ["alice"; "data1"; "read"] /\
  exists model',
    loadPolicyLine (savePolicyLine lengthChecksum "p" ["alice"; "data1"; "read"]) rbacModel =
    Done model' /\
    rulesAt model' "p" "p" = Some [["alice"; "data1"; "read"]].
Proof.
  apply (loadPolicyLine_savePolicyLine lengthChecksum "p" ["alice"; "data1"; "read"]
           rbacModel (mkAssertion "p" "sub, obj, act" ["p_sub"; "p_obj"; "p_act"] [])).
  - discriminate.
  - repeat constructor; discriminate.
  - simpl. lia.
  - reflexivity.
Defined.

(** ** The selector of [RemoveFilteredPolicy] *)

Lemma wrapInt_id (z : Z) : isInt z -> wrapInt z = z.
Proof.
  unfold isInt, minInt, maxInt, wrapInt. intros Hz.
  rewrite Z.mod_small; lia.
Qed.

Lemma wrapInt_above (z : Z) : maxInt < z <= maxInt + 2 ^ 63 -> wrapInt z = z - 2 ^ 64.
Proof.
  unfold maxInt, wrapInt. intros Hz.
  replace (z + 2 ^ 63) with ((z + 2 ^ 63 - 2 ^ 64) + 1 * 2 ^ 64) by lia.
  rewrite Z.mod_add by lia. rewrite Z.mod_small; lia.
Qed.

Lemma len_nonneg {A} (s : list A) : 0 <= len s.
Proof. unfold len. lia. Qed.

(** The guard of a slot admits only indices inside the slice, and the
    subtraction that computes the index does not wrap. *)
Lemma guard_in_range (k fieldIndex : Z) (fieldValues : list string) :
  0 <= k <= 5 -> isInt fieldIndex -> len fieldValues <= maxInt ->
  (fieldIndex <=? k) && (k <? wrapInt (fieldIndex + len fieldValues)) = true ->
  wrapInt (k - fieldIndex) = k - fieldIndex /\
  0 <= k - fieldIndex < len fieldValues.
Proof.
  intros Hk Hint Hlen Hguard.
  apply andb_true_iff in Hguard as [Hlo%Z.leb_le Hhi%Z.ltb_lt].
  pose proof (len_nonneg fieldValues) as Hnn.
  assert (Hsum : k < fieldIndex + len fieldValues).
  { destruct (Z_le_gt_dec (fieldIndex + len fieldValues) maxInt) as [Hfit|Hover].
    - rewrite wrapInt_id in Hhi; [exact Hhi|].
      unfold isInt, minInt, maxInt in *. lia.
    - rewrite wrapInt_above in Hhi; unfold isInt, minInt, maxInt in *; lia. }
  split; [|lia].
  apply wrapInt_id. unfold isInt, minInt, maxInt in *. lia.
Qed.

(** With room for the six slots below the largest integer the guard is the
    window test of the integers. *)
Lemma guard_window (k fieldIndex : Z) (fieldValues : list string) :
  0 <= k <= 5 -> isInt fieldIndex -> len fieldValues <= maxInt - 5 ->
  (fieldIndex <=? k) && (k <? wrapInt (fieldIndex + len fieldValues)) =
  (fieldIndex <=? k) && (k <? fieldIndex + len fieldValues).
Proof.
  intros Hk Hint Hlen.
  destruct (Z.leb_spec fieldIndex k) as [Hlo|Hlo]; [|reflexivity].
  simpl. rewrite wrapInt_id; [reflexivity|].
  pose proof (len_nonneg fieldValues).
  unfold isInt, minInt, maxInt in *. lia.
Qed.

Lemma index_in_range (s : list string) (i : Z) :
  0 <= i < len s -> exists v, s !! Z.to_nat i = Some v /\ index s i = Done v.
Proof.
  intros Hi. unfold index.
  destruct (Z.ltb_spec i 0) as [?|_]; [lia|].
  destruct (Z.leb_spec (len s) i) as [?|_]; [lia|]. simpl.
  destruct (s !! Z.to_nat i) as [v|] eqn:Hv.
  - exists v. split; reflexivity.
  - apply lookup_ge_None in Hv. unfold len in Hi. lia.
Qed.

Lemma slot_completes (k : Z) (name : string) (fieldIndex : Z) (fieldValues : list string)
    (selector : gmap string string) :
  0 <= k <= 5 -> isInt fieldIndex -> len fieldValues <= maxInt ->
  completes (slot k name fieldIndex fieldValues selector).
Proof.
  intros Hk Hint Hlen. unfold slot.
  destruct ((fieldIndex <=? k) && (k <? wrapInt (fieldIndex + len fieldValues)))
    eqn:Hguard; [|eexists; reflexivity].
  destruct (guard_in_range _ _ _ Hk Hint Hlen Hguard) as [-> Hrange].
  destruct (index_in_range _ _ Hrange) as (v & _ & ->). simpl.
  destruct (nonEmpty v); eexists; reflexivity.
Qed.

Lemma slot_spec (k : Z) (name : string) (fieldIndex : Z) (fieldValues : list string)
    (selector : gmap string string) :
  0 <= k <= 5 -> isInt fieldIndex -> len fieldValues <= maxInt - 5 ->
  slot k name fieldIndex fieldValues selector =
  Done (applySlot name (slotValue k fieldIndex fieldValues) selector).
Proof.
  intros Hk Hint Hlen. unfold slot, slotValue.
  assert (Hlen' : len fieldValues <= maxInt) by lia.
  rewrite <- (guard_window _ _ _ Hk Hint Hlen).
  destruct ((fieldIndex <=? k) && (k <? wrapInt (fieldIndex + len fieldValues)))
    eqn:Hguard; [|reflexivity].
  destruct (guard_in_range _ _ _ Hk Hint Hlen' Hguard) as [-> Hrange].
  destruct (index_in_range _ _ Hrange) as (v & -> & ->). simpl.
  destruct (nonEmpty v); reflexivity.
Qed.

Lemma slotValue_participates (k fieldIndex : Z) (fieldValues : list string) (v : string) :
  slotValue k fieldIndex fieldValues = Some v <-> participates k fieldIndex fieldValues v.
Proof.
  unfold slotValue, participates.
  destruct (Z.leb_spec fieldIndex k) as [Hlo|Hlo];
    destruct (Z.ltb_spec k (fieldIndex + len fieldValues)) as [Hhi|Hhi]; simpl;
    try (split; [discriminate | intros [? _]; lia]).
  destruct (fieldValues !! Z.to_nat (k - fieldIndex)) as [x|];
    [|split; [discriminate | intros (_ & [=] & _)]].
  destruct (nonEmpty x) eqn:Hx.
  - apply nonEmpty_true in Hx. split.
    + intros [= <-]. repeat split; try assumption; lia.
    + intros (_ & [= <-] & _). reflexivity.
  - apply nonEmpty_false in Hx. split; [discriminate|].
    intros (_ & [= <-] & Hne). congruence.
Qed.

Lemma lookup_applySlot (name name' : string) (o : option string)
    (selector : gmap string string) :
  applySlot name o selector !! name' =
  if decide (name = name')
  then match o with Some v => Some v | None => selector !! name' end
  else selector !! name'.
Proof.
  destruct o as [v|]; simpl.
  - rewrite lookup_insert. reflexivity.
  - now destruct (decide (name = name')).
Qed.

Lemma buildSelector_completes (fieldIndex : Z) (fieldValues : list string) :
  isInt fieldIndex -> len fieldValues <= maxInt ->
  completes (buildSelector fieldIndex fieldValues).
Proof.
  intros Hint Hlen. unfold buildSelector.
  destruct (slot_completes 0 "v0" fieldIndex fieldValues ∅) as [s0 ->]; [lia|done|done|].
  simpl.
  destruct (slot_completes 1 "v1" fieldIndex fieldValues s0) as [s1 ->]; [lia|done|done|].
  simpl.
  destruct (slot_completes 2 "v2" fieldIndex fieldValues s1) as [s2 ->]; [lia|done|done|].
  simpl.
  destruct (slot_completes 3 "v3" fieldIndex fieldValues s2) as [s3 ->]; [lia|done|done|].
  simpl.
  destruct (slot_completes 4 "v4" fieldIndex fieldValues s3) as [s4 ->]; [lia|done|done|].
  simpl.
  destruct (slot_completes 5 "v5" fieldIndex fieldValues s4) as [s5 ->]; [lia|done|done|].
  simpl. eexists. reflexivity.
Qed.

Lemma buildSelector_spec (fieldIndex : Z) (fieldValues : list string) :
  isInt fieldIndex -> len fieldValues <= maxInt - 5 ->
  buildSelector fieldIndex fieldValues =
  Done (applySlot "v5" (slotValue 5 fieldIndex fieldValues)
       (applySlot "v4" (slotValue 4 fieldIndex fieldValues)
       (applySlot "v3" (slotValue 3 fieldIndex fieldValues)
       (applySlot "v2" (slotValue 2 fieldIndex fieldValues)
       (applySlot "v1" (slotValue 1 fieldIndex fieldValues)
       (applySlot "v0" (slotValue 0 fieldIndex fieldValues) ∅)))))).
Proof.
  intros Hint Hlen. unfold buildSelector.
  rewrite slot_spec by (lia || assumption). simpl.
  rewrite slot_spec by (lia || assumption). simpl.
  rewrite slot_spec by (lia || assumption). simpl.
  rewrite slot_spec by (lia || assumption). simpl.
  rewrite slot_spec by (lia || assumption). simpl.
  rewrite slot_spec by (lia || assumption). reflexivity.
Qed.

Ltac solve_slot_lookup :=
  rewrite !lookup_applySlot;
  repeat (case_decide; try discriminate; try congruence);
  repeat match goal with
         | |- context [match ?o with Some _ => _ | None => _ end] => destruct o
         end;
  try reflexivity.

Lemma buildSelector_lookup (fieldIndex : Z) (fieldValues : list string)
    (selector : gmap string string) :
  isInt fieldIndex -> len fieldValues <= maxInt - 5 ->
  buildSelector fieldIndex fieldValues = Done selector ->
  (forall k name, (k, name) ∈ slotNames ->
                  selector !! name = slotValue k fieldIndex fieldValues) /\
  (forall name, is_Some (selector !! name) -> name ∈ slotNames.*2).
Proof.
  intros Hint Hlen Hrun.
  rewrite (buildSelector_spec _ _ Hint Hlen) in Hrun. injection Hrun as <-.
  split.
  - intros k name Hin. unfold slotNames in Hin.
    repeat (apply elem_of_cons in Hin as [[= -> ->]|Hin]; [solve_slot_lookup|]).
    now apply elem_of_nil in Hin.
  - intros name [v Hv]. rewrite !lookup_applySlot in Hv.
    repeat (case_decide; [subst name; unfold slotNames; simpl; set_solver|]).
    rewrite lookup_empty in Hv. discriminate Hv.
Qed.

Lemma buildQuery_from (entries : list (string * string)) (query : string)
    (parameters : list QueryParameter) :
  fold_left
    (fun acc entry =>
       (fst acc +:+ " AND root." +:+ fst entry +:+ " = @" +:+ fst entry,
        snd acc ++ [{| Name := "@" +:+ fst entry; Value := snd entry |}]))
    entries (query, parameters) =
  (query +:+ concatStrings (map predicateText entries),
   parameters ++ map parameterOf entries).
Proof.
  revert query parameters.
  induction entries as [|entry entries IH]; intros query parameters.
  - cbn [fold_left map concatStrings fold_right]. f_equal.
    + clear. induction query as [|c query IHq]; [reflexivity|].
      rewrite append_cons. now rewrite <- IHq.
    + now rewrite app_nil_r.
  - cbn [fold_left map concatStrings fold_right fst snd]. rewrite IH. f_equal.
    + fold (predicateText entry). fold (concatStrings (map predicateText entries)).
      apply append_assoc.
    + fold (parameterOf entry). now rewrite <- app_assoc.
Qed.

Lemma buildQuery_closed (ptype : string) (entries : list (string * string)) :
  buildQuery ptype entries =
  (baseQuery +:+ concatStrings (map predicateText entries),
   {| Name := "@pType"; Value := ptype |} :: map parameterOf entries).
Proof.
  unfold buildQuery. now rewrite buildQuery_from.
Qed.

(** The two builder examples of the specification. *)
Example buildSelector_skips_empty_value :
  buildSelector 0 [""; "data1"] = Done {[ "v1" := "data1" ]} /\
  buildQuery "p" [("v1", "data1")] =
  ("SELECT * FROM root WHERE root.pType = @pType AND root.v1 = @v1",
   [{| Name := "@pType"; Value := "p" |}; {| Name := "@v1"; Value := "data1" |}]).
Proof. split; vm_compute; reflexivity. Qed.

Example buildSelector_negative_offset :
  buildSelector (-1) ["x"; "y"; "z"] = Done (<[ "v1" := "z" ]> {[ "v0" := "y" ]}).
Proof. vm_compute. reflexivity. Qed.

(** C10: for every [int] offset, below 0 or above 5 as well, and every
    slice of values, the selector is built without a panic: whenever a
    guard [fieldIndex <= k && k < fieldIndex+len(fieldValues)] lets a read
    [fieldValues[k-fieldIndex]] happen, the index is at least 0 and less
    than the length, so the read succeeds. *)
Theorem buildSelector_reads_in_range (fieldIndex : Z) (fieldValues : list string) :
  isInt fieldIndex -> len fieldValues <= maxInt ->
  completes (buildSelector fieldIndex fieldValues) /\
  forall k name,
    (k, name) ∈ slotNames ->
    (fieldIndex <=? k) && (k <? wrapInt (fieldIndex + len fieldValues)) = true ->
    0 <= wrapInt (k - fieldIndex) < len fieldValues /\
    completes (index fieldValues (wrapInt (k - fieldIndex))).
Proof.
  intros Hint Hlen. split; [now apply buildSelector_completes|].
  intros k name Hin Hguard.
  assert (Hk : 0 <= k <= 5).
  { unfold slotNames in Hin.
    repeat (apply elem_of_cons in Hin as [[= -> _]|Hin]; [lia|]).
    now apply elem_of_nil in Hin. }
  destruct (guard_in_range _ _ _ Hk Hint Hlen Hguard) as [-> Hrange].
  split; [exact Hrange|].
  destruct (index_in_range _ _ Hrange) as (v & _ & Hv). now exists v.
Qed.

Lemma buildSelector_reads_in_range_witness :
  completes (buildSelector (-1) ["x"; "y"; "z"]) /\
  forall k name,
    (k, name) ∈ slotNames ->
    (-1 <=? k) && (k <? wrapInt (-1 + len ["x"; "y"; "z"])) = true ->
    0 <= wrapInt (k - -1) < len ["x"; "y"; "z"] /\
    completes (index ["x"; "y"; "z"] (wrapInt (k - -1))).
Proof.
  apply (buildSelector_reads_in_range (-1) ["x"; "y"; "z"]).
  - unfold isInt, minInt, maxInt. lia.
  - unfold len, maxInt. simpl. lia.
Defined.

(** ** The adapter *)

Section AdapterProperties.

Variable Checksum : Z -> list byte -> list byte.
Variable rangeOrder : forall A : Type, gmap string A -> list (string * A).
Hypothesis rangeOrder_perm :
  forall (A : Type) (m : gmap string A), rangeOrder A m ≡ₚ map_to_list m.

Context {S : Type} `{ContainerClient S}.

Lemma deletePolicies_calls (policies : list CasbinRule) (w : World S) :
  exists later, calls (deletePolicies policies w).2 = calls w ++ later.
Proof.
  revert w. induction policies as [|policy rest IH]; intros w.
  - exists []. simpl. now rewrite app_nil_r.
  - simpl. destruct (DeleteItem (client w) (PType policy) (ID policy)) as [[err|] s'].
    + simpl. eexists. reflexivity.
    + simpl. destruct (IH (mkWorld s' (calls w ++ [CallDeleteItem (PType policy) (ID policy)])))
        as [later Hlater].
      rewrite Hlater. simpl. rewrite <- app_assoc. eexists. reflexivity.
Qed.

Lemma rangeOrder_elem_of (m : gmap string string) (name v : string) :
  (name, v) ∈ rangeOrder string m <-> m !! name = Some v.
Proof.
  rewrite (rangeOrder_perm string m). apply elem_of_map_to_list.
Qed.

Lemma rangeOrder_NoDup (m : gmap string string) : NoDup (rangeOrder string m).*1.
Proof.
  rewrite (rangeOrder_perm string m). apply NoDup_fst_map_to_list.
Qed.

(** Once the selector is built the method queries the store; it ends with
    [nil] or with an error of the store. *)
Lemma RemoveFilteredPolicy_run
    (sec ptype : string) (fieldIndex : Z) (fieldValues : list string) (w : World S)
    (selector : gmap string string) :
  buildSelector fieldIndex fieldValues = Done selector ->
  exists later,
    calls (RemoveFilteredPolicy rangeOrder sec ptype fieldIndex fieldValues w).2 =
    calls w ++
      CallQuery
        (baseQuery +:+ concatStrings (map predicateText (rangeOrder string selector)))
        ptype
        ({| Name := "@pType"; Value := ptype |}
           :: map parameterOf (rangeOrder string selector))
      :: later /\
    (forall msg,
       (RemoveFilteredPolicy rangeOrder sec ptype fieldIndex fieldValues w).1 <> RetPanic msg).
Proof.
  intros Hsel. unfold RemoveFilteredPolicy. rewrite Hsel, buildQuery_closed.
  cbn [queryItems].
  set (query := baseQuery +:+ _). set (parameters := _ :: _).
  set (w1 := mkWorld (client w) _).
  destruct (drainPager _ []) as [err|policies].
  - exists []. split; [reflexivity | intros msg; discriminate].
  - destruct (deletePolicies_calls policies w1) as [later Hlater].
    exists later.
    destruct (deletePolicies policies w1) as [e w2]. simpl in Hlater. simpl.
    split.
    + rewrite Hlater. subst w1. simpl. now rewrite <- app_assoc.
    + intros msg. destruct e; discriminate.
Qed.

(** C4: [RemoveFilteredPolicy] does not panic on any [int] offset, and
    the query it sends, in the partition of the policy type, is the
    equality on [pType] followed by one equality predicate for each entry
    of the selector, each with its parameter. The selector has an entry
    for field [vk], [k] in [0..5], bound to [v] if and only if
    [fieldIndex <= k < fieldIndex + len(fieldValues)] and
    [fieldValues[k - fieldIndex]] is [v] and is not empty; it has no other
    entry, so slots outside the window, slots with an empty value and
    values placed below slot 0 add nothing. This holds for every [int]
    offset and every slice whose length leaves room for the six slots
    below the largest [int], in whatever order [range] visits the
    selector. *)
Theorem RemoveFilteredPolicy_filter
    (sec ptype : string) (fieldIndex : Z) (fieldValues : list string) (w : World S) :
  isInt fieldIndex -> len fieldValues <= maxInt - 5 ->
  exists (selector : gmap string string) (later : list Call),
    buildSelector fieldIndex fieldValues = Done selector /\
    (forall k name v,
       (k, name) ∈ slotNames ->
       (selector !! name = Some v <-> participates k fieldIndex fieldValues v)) /\
    (forall name, is_Some (selector !! name) -> name ∈ slotNames.*2) /\
    (forall name v, (name, v) ∈ rangeOrder string selector <-> selector !! name = Some v) /\
    NoDup (rangeOrder string selector).*1 /\
    calls (RemoveFilteredPolicy rangeOrder sec ptype fieldIndex fieldValues w).2 =
    calls w ++
      CallQuery
        (baseQuery +:+ concatStrings (map predicateText (rangeOrder string selector)))
        ptype
        ({| Name := "@pType"; Value := ptype |}
           :: map parameterOf (rangeOrder string selector))
      :: later /\
    (forall msg,
       (RemoveFilteredPolicy rangeOrder sec ptype fieldIndex fieldValues w).1 <> RetPanic msg).
Proof.
  intros Hint Hlen.
  destruct (buildSelector_completes fieldIndex fieldValues Hint) as [selector Hsel]; [lia|].
  destruct (buildSelector_lookup _ _ _ Hint Hlen Hsel) as [Hlookup Hdom].
  destruct (RemoveFilteredPolicy_run sec ptype fieldIndex fieldValues w selector Hsel)
    as (later & Hcalls & Hret).
  exists selector, later.
  split; [exact Hsel|].
  split.
  { intros k name v Hin. rewrite (Hlookup _ _ Hin). apply slotValue_participates. }
  split; [exact Hdom|].
  split; [intros name v; apply rangeOrder_elem_of|].
  split; [apply rangeOrder_NoDup|].
  split; [exact Hcalls | exact Hret].
Qed.

(** C7: while the flag is set [SavePolicy] returns the error
    "cannot save a filtered policy" at once: the container and the log of
    store calls are as they were, so nothing was dropped, created or
    written. *)
Theorem SavePolicy_rejects_filtered (a : adapter) (model : Model) (w : World S) :
  IsFiltered a = true ->
  SavePolicy Checksum rangeOrder a model w = (RetErr "cannot save a filtered policy", w) /\
  calls (SavePolicy Checksum rangeOrder a model w).2 = calls w /\
  client (SavePolicy Checksum rangeOrder a model w).2 = client w.
Proof.
  unfold IsFiltered, SavePolicy. intros ->. repeat split.
Qed.

Lemma LoadFilteredPolicy_sets_flag
    (a : adapter) (model : Model) (querySpec : SqlQuerySpec) (w : World S) :
  filtered (LoadFilteredPolicy a model (FilterSpec querySpec) w).1.1.2 = true.
Proof.
  unfold LoadFilteredPolicy. cbn [queryItems].
  destruct (drainPager _ []) as [err|lines]; [reflexivity|].
  now destruct (loadAllLines lines model).
Qed.

Lemma LoadPolicy_clears_flag (a : adapter) (model : Model) (w : World S) :
  filtered (LoadPolicy a model w).1.1.2 = false.
Proof.
  unfold LoadPolicy. cbn [queryItems].
  destruct (drainPager _ []) as [err|lines]; [reflexivity|].
  now destruct (loadAllLines lines model).
Qed.

(** [LoadPolicy] sends one query, to the partition ["p"]. *)
Lemma LoadPolicy_calls (a : adapter) (model : Model) (w : World S) :
  calls (LoadPolicy a model w).2 = calls w ++ [CallQuery "SELECT * FROM c" "p" []].
Proof.
  unfold LoadPolicy. cbn [queryItems].
  destruct (drainPager _ []) as [err|lines]; [reflexivity|].
  now destruct (loadAllLines lines model).
Qed.

(** C9, as the code has it: [LoadFilteredPolicy] sets the flag as soon as
    its filter is a [SqlQuerySpec], before it queries the store, so the
    flag is set however the call then ends; with any other filter it
    panics and leaves the adapter as it was. [LoadPolicy] clears the flag
    before it queries the store, however the call then ends. [IsFiltered]
    returns the flag. *)
Theorem filtered_flag_follows_last_load
    (a : adapter) (model : Model) (querySpec : SqlQuerySpec) (w : World S) :
  IsFiltered (LoadFilteredPolicy a model (FilterSpec querySpec) w).1.1.2 = true /\
  (LoadFilteredPolicy a model FilterOther w).1.1.2 = a /\
  IsFiltered (LoadPolicy a model w).1.1.2 = false /\
  IsFiltered a = filtered a /\
  (exists msg, (LoadFilteredPolicy a model FilterOther w).1.1.1 = RetPanic msg).
Proof.
  unfold IsFiltered.
  split; [apply LoadFilteredPolicy_sets_flag|].
  split; [reflexivity|].
  split; [apply LoadPolicy_clears_flag|].
  split; [reflexivity|].
  eexists. reflexivity.
Qed.

End AdapterProperties.

(** ** The adapter on the in-memory container *)

Lemma listOrder_perm (A : Type) (m : gmap string A) : listOrder A m ≡ₚ map_to_list m.
Proof. reflexivity. Qed.

Lemma RemoveFilteredPolicy_filter_witness :
  exists (selector : gmap string string) (later : list Call),
    buildSelector (-1) ["x"; "y"; "z"] = Done selector /\
    (forall k name v,
       (k, name) ∈ slotNames ->
       (selector !! name = Some v <-> participates k (-1) ["x"; "y"; "z"] v)) /\
    (forall name, is_Some (selector !! name) -> name ∈ slotNames.*2) /\
    (forall name v, (name, v) ∈ listOrder string selector <-> selector !! name = Some v) /\
    NoDup (listOrder string selector).*1 /\
    calls (RemoveFilteredPolicy listOrder "p" "p" (-1) ["x"; "y"; "z"] emptyWorld).2 =
    calls emptyWorld ++
      CallQuery
        (baseQuery +:+ concatStrings (map predicateText (listOrder string selector)))
        "p"
        ({| Name := "@pType"; Value := "p" |}
           :: map parameterOf (listOrder string selector))
      :: later /\
    (forall msg,
       (RemoveFilteredPolicy listOrder "p" "p" (-1) ["x"; "y"; "z"] emptyWorld).1
       <> RetPanic msg).
Proof.
  apply (RemoveFilteredPolicy_filter listOrder listOrder_perm "p" "p" (-1)
           ["x"; "y"; "z"] emptyWorld).
  - unfold isInt, minInt, maxInt. lia.
  - unfold len, maxInt. simpl. lia.
Defined.

Lemma SavePolicy_rejects_filtered_witness :
  (LoadFilteredPolicy freshAdapter rbacModel aliceFilter emptyWorld).1.1.1 = RetNil /\
  SavePolicy lengthChecksum listOrder
    (LoadFilteredPolicy freshAdapter rbacModel aliceFilter emptyWorld).1.1.2
    aliceModel
    (LoadFilteredPolicy freshAdapter rbacModel aliceFilter emptyWorld).2 =
  (RetErr "cannot save a filtered policy",
   (LoadFilteredPolicy freshAdapter rbacModel aliceFilter emptyWorld).2).
Proof.
  split; [reflexivity|].
  apply (SavePolicy_rejects_filtered lengthChecksum listOrder
           (LoadFilteredPolicy freshAdapter rbacModel aliceFilter emptyWorld).1.1.2
           aliceModel
           (LoadFilteredPolicy freshAdapter rbacModel aliceFilter emptyWorld).2).
  reflexivity.
Defined.

(** C9 fails as stated: a filtered load that fails on the store leaves the
    flag set, on an adapter whose flag was clear. *)
Lemma LoadFilteredPolicy_failure_sets_flag :
  (LoadFilteredPolicy freshAdapter rbacModel aliceFilter offlineWorld).1.1.1 =
  RetErr "service unavailable" /\
  filtered freshAdapter = false /\
  filtered (LoadFilteredPolicy freshAdapter rbacModel aliceFilter offlineWorld).1.1.2 = true /\
  ~ (forall (a : adapter) (model : Model) (filter : Filter) (w : World MemStore),
       filtered a = false ->
       (filtered (LoadFilteredPolicy a model filter w).1.1.2 = true <->
        (LoadFilteredPolicy a model filter w).1.1.1 = RetNil)).
Proof.
  split; [reflexivity|]. split; [reflexivity|]. split; [reflexivity|].
  intros Hclaim.
  destruct (Hclaim freshAdapter rbacModel aliceFilter offlineWorld eq_refl) as [Hsuccess _].
  specialize (Hsuccess eq_refl). discriminate Hsuccess.
Qed.

(** C2 on the code: [SavePolicy] writes the rules of the sections ["p"] and
    ["g"], each record in the partition of its policy type; [LoadPolicy]
    then queries the partition ["p"] alone, and the role assignment that
    was saved is not loaded. *)
Theorem LoadPolicy_omits_partition_g :
  let saved := SavePolicy lengthChecksum listOrder freshAdapter aliceModel emptyWorld in
  let loaded := LoadPolicy freshAdapter rbacModel (mkWorld (client saved.2) []) in
  saved.1 = RetNil /\
  map (fun d => (PType d, fields d)) (docs (client saved.2)) =
  [("p", ["alice"; "data1"; "read"; ""; ""; ""]);
   ("g", ["alice"; "admin"; ""; ""; ""; ""])] /\
  loaded.1.1.1 = RetNil /\
  calls loaded.2 = [CallQuery "SELECT * FROM c" "p" []] /\
  rulesAt loaded.1.2 "p" "p" = Some [["alice"; "data1"; "read"]] /\
  rulesAt loaded.1.2 "g" "g" = Some [].
Proof.
  vm_compute. repeat split.
Qed.

(** * Further properties of the code *)

(** ** Decoding one record *)

Lemma loadPolicyLine_panics (line : CasbinRule) (model : Model) :
  ~ decodable model line -> exists msg, loadPolicyLine line model = Panic msg.
Proof.
  intros Hnot. destruct (loadPolicyLine line model) as [model'|msg] eqn:Hrun.
  - exfalso. apply Hnot. apply loadPolicyLine_completes_inv. now exists model'.
  - now exists msg.
Qed.

(** X1: a decoded record touches one assertion only. Every assertion other
    than that of the record's policy type is as before, no assertion is
    created or removed, and the assertion of the policy type keeps its key,
    value and tokens and the rules it had, in order, before the new one. *)
Theorem loadPolicyLine_frame (line : CasbinRule) (model model' : Model) :
  loadPolicyLine line model = Done model' ->
  (forall sec key,
     (sec, key) <> (firstChar (PType line), PType line) ->
     assertionAt model' sec key = assertionAt model sec key) /\
  (forall sec key,
     is_Some (assertionAt model' sec key) <-> is_Some (assertionAt model sec key)) /\
  (exists ast,
     assertionAt model (firstChar (PType line)) (PType line) = Some ast /\
     assertionAt model' (firstChar (PType line)) (PType line) =
     Some {| AKey := AKey ast; AValue := AValue ast; ATokens := ATokens ast;
             Policy := Policy ast ++ [scanTokens line] |}).
Proof.
  intros Hrun.
  destruct (loadPolicyLine_completes_inv line model) as [Hkey [ast Hast]];
    [now exists model'|].
  rewrite (loadPolicyLine_done _ _ _ Hkey Hast) in Hrun. injection Hrun as <-.
  assert (Hother : forall sec key,
             (sec, key) <> (firstChar (PType line), PType line) ->
             assertionAt (storeAssertion model (firstChar (PType line)) (PType line)
                            (appendPolicy ast (scanTokens line))) sec key =
             assertionAt model sec key).
  { intros sec key Hne. apply assertionAt_storeAssertion_other. congruence. }
  split; [exact Hother|]. split.
  - intros sec key.
    destruct (decide ((sec, key) = (firstChar (PType line), PType line))) as [[= -> ->]|Hne].
    + rewrite (assertionAt_storeAssertion _ _ _ _ _ Hast), Hast. split; eauto.
    + now rewrite (Hother _ _ Hne).
  - exists ast. split; [exact Hast|].
    apply (assertionAt_storeAssertion _ _ _ _ _ Hast).
Qed.

Lemma loadPolicyLine_frame_witness :
  assertionAt
    (storeAssertion rbacModel "p" "p"
       (appendPolicy (mkAssertion "p" "sub, obj, act" ["p_sub"; "p_obj"; "p_act"] [])
          (scanTokens gapLine))) "g" "g" =
  assertionAt rbacModel "g" "g".
Proof.
  apply (loadPolicyLine_frame gapLine rbacModel); [reflexivity | discriminate].
Defined.

(** ** Encoding *)

Section EncodingProperties.

Variable Checksum : Z -> list byte -> list byte.

Lemma fields_savePolicyLine (ptype : string) (rule : list string) :
  fields (savePolicyLine Checksum ptype rule) =
  [nth 0 rule ""; nth 1 rule ""; nth 2 rule ""; nth 3 rule ""; nth 4 rule "";
   nth 5 rule ""].
Proof.
  unfold fields, savePolicyLine. cbn [V0 V1 V2 V3 V4 V5].
  now rewrite (guarded_nth 0), (guarded_nth 1), (guarded_nth 2),
    (guarded_nth 3), (guarded_nth 4), (guarded_nth 5).
Qed.

(** X2: what decoding reads back from an encoded rule, for every rule: the
    values up to the first empty one among the first six. A seventh value
    and the values after it are lost, and so is everything from an empty
    value on. *)
Theorem scanTokens_savePolicyLine_any (ptype : string) (rule : list string) :
  scanTokens (savePolicyLine Checksum ptype rule) = takeWhile nonEmpty (take 6 rule).
Proof.
  rewrite scanTokens_takeWhile, fields_savePolicyLine.
  do 6 (destruct rule as [|? rule];
        [ simpl;
          repeat match goal with
                 | |- context [nonEmpty ?x] => is_var x; destruct (nonEmpty x)
                 end; reflexivity
        | ]).
  simpl.
  repeat match goal with
         | |- context [nonEmpty ?x] => is_var x; destruct (nonEmpty x)
         end; reflexivity.
Qed.

(** X3: the identifier does not tell a comma inside a value from the comma
    between two values, nor from the one after the policy type: two
    neighbouring values and the single value made of them joined by a comma
    have the same identifier, and so have a policy type followed by a value
    and the policy type made of both. *)
Theorem policyID_comma_collision (ptype v1 v2 : string) (rest : list string) :
  policyID Checksum ptype (v1 :: v2 :: rest) =
  policyID Checksum ptype ((v1 +:+ "," +:+ v2) :: rest) /\
  policyID Checksum ptype (v1 :: rest) =
  policyID Checksum (ptype +:+ "," +:+ v1) rest /\
  ID (savePolicyLine Checksum ptype [v1; v2]) =
  ID (savePolicyLine Checksum ptype [v1 +:+ "," +:+ v2]).
Proof.
  assert (Hjoin : forall others,
             Join ([ptype] ++ v1 :: v2 :: others) "," =
             Join ([ptype] ++ (v1 +:+ "," +:+ v2) :: others) ",").
  { intros others. change ([ptype] ++ ?l) with (ptype :: l).
    rewrite !Join_cons. cbn [fold_right]. now rewrite !append_assoc. }
  split; [|split].
  - unfold policyID. now rewrite Hjoin.
  - unfold policyID. change ([?p] ++ ?l) with (p :: l).
    rewrite !Join_cons. cbn [fold_right]. now rewrite !append_assoc.
  - unfold savePolicyLine. cbn [ID]. unfold policyID. now rewrite Hjoin.
Qed.

End EncodingProperties.

Lemma unhexByte_hexDigits (b : byte) :
  unhexByte (hexDigit (Byte.to_N b / 16)) (hexDigit (Byte.to_N b mod 16)) = Some b.
Proof.
  destruct b; vm_compute; reflexivity.
Qed.

Lemma unhexString_hexString (sum : list byte) : unhexString (hexString sum) = Some sum.
Proof.
  induction sum as [|b sum IH]; [reflexivity|].
  cbn [hexString unhexString]. now rewrite unhexByte_hexDigits, IH.
Qed.

Lemma hexString_length (sum : list byte) :
  String.length (hexString sum) = (2 * length sum)%nat.
Proof.
  induction sum as [|b sum IH]; [reflexivity|].
  cbn [hexString String.length length]. rewrite IH. lia.
Qed.

(** X4: the identifier is the checksum written with two hexadecimal digits
    for each byte, and the checksum can be read back from it: two
    identifiers are equal exactly when the checksums of the two joined
    strings are. *)
Theorem policyID_hex (Checksum : Z -> list byte -> list byte)
    (ptype ptype' : string) (rule rule' : list string) :
  unhexString (policyID Checksum ptype rule) =
  Some (Checksum 0 (list_byte_of_string (idString ptype rule))) /\
  String.length (policyID Checksum ptype rule) =
  Nat.mul 2 (length (Checksum 0 (list_byte_of_string (idString ptype rule)))) /\
  (policyID Checksum ptype rule = policyID Checksum ptype' rule' <->
   Checksum 0 (list_byte_of_string (idString ptype rule)) =
   Checksum 0 (list_byte_of_string (idString ptype' rule'))).
Proof.
  assert (Hid : forall p r,
             policyID Checksum p r =
             hexString (Checksum 0 (list_byte_of_string (idString p r)))).
  { intros p r. unfold policyID, idString.
    change ([p] ++ r) with (p :: r). now rewrite Join_cons. }
  rewrite !Hid. split; [apply unhexString_hexString|].
  split; [apply hexString_length|]. split.
  - intros Heq. apply (f_equal unhexString) in Heq.
    rewrite !unhexString_hexString in Heq. now injection Heq.
  - now intros ->.
Qed.

(** ** Decoding the fetched records *)

Lemma loadPolicyLine_Done_inv (line : CasbinRule) (model model' : Model) :
  loadPolicyLine line model = Done model' ->
  exists ast,
    PType line <> "" /\
    assertionAt model (firstChar (PType line)) (PType line) = Some ast /\
    model' = storeAssertion model (firstChar (PType line)) (PType line)
               (appendPolicy ast (scanTokens line)).
Proof.
  intros Hrun.
  destruct (loadPolicyLine_completes_inv line model) as [Hkey [ast Hast]];
    [now exists model'|].
  rewrite (loadPolicyLine_done _ _ _ Hkey Hast) in Hrun. injection Hrun as <-.
  now exists ast.
Qed.

Lemma assertionAt_storeAssertion_present (model : Model) (sec key sec' key' : string)
    (ast ast' : Assertion) :
  assertionAt model sec key = Some ast ->
  is_Some (assertionAt (storeAssertion model sec key ast') sec' key') <->
  is_Some (assertionAt model sec' key').
Proof.
  intros Hast.
  destruct (decide ((sec, key) = (sec', key'))) as [[= <- <-]|Hne].
  - rewrite (assertionAt_storeAssertion _ _ _ _ _ Hast), Hast. split; eauto.
  - now rewrite (assertionAt_storeAssertion_other _ _ _ _ _ _ Hne).
Qed.

Lemma decodable_after (line other : CasbinRule) (model model' : Model) :
  loadPolicyLine line model = Done model' ->
  decodable model' other <-> decodable model other.
Proof.
  intros Hrun. destruct (loadPolicyLine_Done_inv _ _ _ Hrun) as (ast & _ & Hast & ->).
  unfold decodable. now rewrite (assertionAt_storeAssertion_present _ _ _ _ _ _ _ Hast).
Qed.

(** When every fetched record is decodable the loop over them ends without
    a panic and, for every policy type, the rule list of its assertion is
    the one from before followed by the decoded tuples of the fetched
    records of that type, in the order in which they were fetched;
    assertions filed under another section than the first character of
    their key are untouched. *)
Lemma loadAllLines_rules (lines : list CasbinRule) (model : Model) :
  Forall (decodable model) lines ->
  exists model',
    loadAllLines lines model = (RetNil, model') /\
    (forall key,
       rulesAt model' (firstChar key) key =
       (fun old => old ++ map scanTokens (linesOf key lines))
         <$> rulesAt model (firstChar key) key) /\
    (forall sec key,
       sec <> firstChar key -> assertionAt model' sec key = assertionAt model sec key).
Proof.
  revert model. induction lines as [|line rest IH]; intros model Hall.
  - exists model. split; [reflexivity|]. split; [|reflexivity].
    intros key. unfold linesOf. simpl.
    destruct (rulesAt model (firstChar key) key) as [old|]; simpl; [|reflexivity].
    now rewrite app_nil_r.
  - apply Forall_cons in Hall as [[Hkey [ast Hast]] Hrest].
    pose proof (loadPolicyLine_done _ _ _ Hkey Hast) as Hdone.
    destruct (IH (storeAssertion model (firstChar (PType line)) (PType line)
                    (appendPolicy ast (scanTokens line)))) as (model' & Hrun & Hrules & Hframe).
    { eapply Forall_impl; [exact Hrest|].
      intros other Hother. now apply (decodable_after _ _ _ _ Hdone). }
    exists model'. split; [simpl; now rewrite Hdone|]. split.
    + intros key. rewrite Hrules. unfold linesOf, rulesAt. simpl List.filter.
      destruct (String.eqb_spec (PType line) key) as [<-|Hne].
      * rewrite (assertionAt_storeAssertion _ _ _ _ _ Hast), Hast. simpl.
        now rewrite <- app_assoc.
      * rewrite assertionAt_storeAssertion_other; [reflexivity|]. congruence.
    + intros sec key Hne. rewrite (Hframe _ _ Hne).
      apply assertionAt_storeAssertion_other. intros [= <- <-]. now apply Hne.
Qed.

(** X5: the records are decoded into the model one after the other, so a
    record that cannot be decoded panics after the records fetched before
    it have been loaded, and the records after it are not loaded. *)
Theorem loadAllLines_panic (good : list CasbinRule) (bad : CasbinRule)
    (rest : list CasbinRule) (model : Model) :
  Forall (decodable model) good ->
  ~ decodable model bad ->
  exists msg model',
    loadAllLines (good ++ bad :: rest) model = (RetPanic msg, model') /\
    loadAllLines good model = (RetNil, model').
Proof.
  revert model. induction good as [|line good IH]; intros model Hall Hbad.
  - destruct (loadPolicyLine_panics _ _ Hbad) as [msg Hmsg].
    exists msg, model. simpl. now rewrite Hmsg.
  - apply Forall_cons in Hall as [[Hkey [ast Hast]] Hgood].
    pose proof (loadPolicyLine_done _ _ _ Hkey Hast) as Hdone.
    destruct (IH (storeAssertion model (firstChar (PType line)) (PType line)
                    (appendPolicy ast (scanTokens line)))) as (msg & model' & Hrun & Hpre).
    { eapply Forall_impl; [exact Hgood|].
      intros other Hother. now apply (decodable_after _ _ _ _ Hdone). }
    { intros Hdec. apply Hbad. now apply (decodable_after _ _ _ _ Hdone). }
    exists msg, model'. simpl. now rewrite Hdone.
Qed.

Lemma loadAllLines_panic_witness :
  exists msg model',
    loadAllLines ([gapLine] ++ untypedLine :: [blankLine]) rbacModel = (RetPanic msg, model') /\
    loadAllLines [gapLine] rbacModel = (RetNil, model').
Proof.
  apply (loadAllLines_panic [gapLine] untypedLine [blankLine] rbacModel).
  - repeat constructor; try discriminate; eexists; reflexivity.
  - intros [Hkey _]. now apply Hkey.
Defined.

Lemma loadAllLines_ret (lines : list CasbinRule) (model : Model) (err : error) :
  (loadAllLines lines model).1 <> RetErr err.
Proof.
  revert model. induction lines as [|line rest IH]; intros model; simpl; [discriminate|].
  destruct (loadPolicyLine line model) as [model'|msg]; [apply IH | discriminate].
Qed.

(** ** Fetching *)

Lemma unmarshalItems_documents (documents : list CasbinRule) (lines : list CasbinRule) :
  unmarshalItems (map ItemDocument documents) lines = inr (lines ++ documents).
Proof.
  revert lines. induction documents as [|d documents IH]; intros lines; simpl.
  - now rewrite app_nil_r.
  - rewrite IH. now rewrite <- app_assoc.
Qed.

Lemma unmarshalItems_malformed (documents : list CasbinRule) (err : error)
    (items : list Item) (lines : list CasbinRule) :
  unmarshalItems (map ItemDocument documents ++ ItemMalformed err :: items) lines = inl err.
Proof.
  revert lines. induction documents as [|d documents IH]; intros lines; simpl;
    [reflexivity | apply IH].
Qed.

Lemma drainPager_pages (pages : list (list CasbinRule)) (rest : Pager)
    (lines : list CasbinRule) :
  drainPager (map pageOf pages ++ rest) lines = drainPager rest (lines ++ concat pages).
Proof.
  revert lines. induction pages as [|page pages IH]; intros lines; simpl.
  - now rewrite app_nil_r.
  - rewrite unmarshalItems_documents, IH. now rewrite <- app_assoc.
Qed.

(** X6: the pager loop collects the documents of all pages in order; the
    first page that fails, or the first item that does not unmarshal, ends
    it with that error, and what was collected until then is given up. *)
Theorem drainPager_outcomes (pages : list (list CasbinRule)) (err : error)
    (documents : list CasbinRule) (items : list Item) (later : Pager) :
  drainPager (map pageOf pages) [] = inr (concat pages) /\
  drainPager (map pageOf pages ++ inl err :: later) [] = inl err /\
  drainPager
    (map pageOf pages ++ inr (map ItemDocument documents ++ ItemMalformed err :: items) :: later)
    [] = inl err.
Proof.
  split; [|split].
  - rewrite <- (app_nil_r (map pageOf pages)). now rewrite drainPager_pages.
  - now rewrite drainPager_pages.
  - rewrite drainPager_pages. simpl. now rewrite unmarshalItems_malformed.
Qed.

(** ** Loading *)

Section LoadProperties.

Context {S : Type} `{ContainerClient S}.

(** X7: when the query of [LoadPolicy] is answered with pages of documents
    that are all decodable, the call returns nil with the flag cleared and
    the store as it was, and every policy type has its former rules
    followed by the decoded tuples of the fetched records of that type, in
    the order of the pages. *)
Theorem LoadPolicy_appends_fetched
    (a : adapter) (model : Model) (w : World S) (pages : list (list CasbinRule)) :
  NewQueryItemsPager (client w) "SELECT * FROM c" "p" [] = map pageOf pages ->
  Forall (decodable model) (concat pages) ->
  exists model',
    LoadPolicy a model w =
    (RetNil, setFiltered a false, model',
     mkWorld (client w) (calls w ++ [CallQuery "SELECT * FROM c" "p" []])) /\
    (forall key,
       rulesAt model' (firstChar key) key =
       (fun old => old ++ map scanTokens (linesOf key (concat pages)))
         <$> rulesAt model (firstChar key) key).
Proof.
  intros Hpager Hall.
  destruct (loadAllLines_rules _ _ Hall) as (model' & Hrun & Hrules & _).
  exists model'. split; [|exact Hrules].
  unfold LoadPolicy. cbn [queryItems]. rewrite Hpager.
  pose proof (drainPager_pages pages [] []) as Hdrain.
  rewrite app_nil_r in Hdrain. simpl in Hdrain. rewrite Hdrain, Hrun. reflexivity.
Qed.

(** X8: the same for [LoadFilteredPolicy] with the query and the parameters
    of the caller's [SqlQuerySpec], except that the flag is set. *)
Theorem LoadFilteredPolicy_appends_fetched
    (a : adapter) (model : Model) (querySpec : SqlQuerySpec) (w : World S)
    (pages : list (list CasbinRule)) :
  NewQueryItemsPager (client w) (Query querySpec) "p" (Parameters querySpec) =
  map pageOf pages ->
  Forall (decodable model) (concat pages) ->
  exists model',
    LoadFilteredPolicy a model (FilterSpec querySpec) w =
    (RetNil, setFiltered a true, model',
     mkWorld (client w)
       (calls w ++ [CallQuery (Query querySpec) "p" (Parameters querySpec)])) /\
    (forall key,
       rulesAt model' (firstChar key) key =
       (fun old => old ++ map scanTokens (linesOf key (concat pages)))
         <$> rulesAt model (firstChar key) key).
Proof.
  intros Hpager Hall.
  destruct (loadAllLines_rules _ _ Hall) as (model' & Hrun & Hrules & _).
  exists model'. split; [|exact Hrules].
  unfold LoadFilteredPolicy. cbn [queryItems]. rewrite Hpager.
  pose proof (drainPager_pages pages [] []) as Hdrain.
  rewrite app_nil_r in Hdrain. simpl in Hdrain. rewrite Hdrain, Hrun. reflexivity.
Qed.

(** X9: the records are fetched, all of them, before the first one is
    decoded: when [LoadPolicy] or [LoadFilteredPolicy] returns an error the
    model is as it was. *)
Theorem load_error_keeps_model
    (a : adapter) (model : Model) (filter : Filter) (w : World S) (err : error) :
  ((LoadPolicy a model w).1.1.1 = RetErr err -> (LoadPolicy a model w).1.2 = model) /\
  ((LoadFilteredPolicy a model filter w).1.1.1 = RetErr err ->
   (LoadFilteredPolicy a model filter w).1.2 = model).
Proof.
  split.
  - unfold LoadPolicy. cbn [queryItems].
    destruct (drainPager _ []) as [e|lines]; [reflexivity|].
    pose proof (loadAllLines_ret lines model err) as Hret.
    destruct (loadAllLines lines model) as [r model']. simpl in *. congruence.
  - unfold LoadFilteredPolicy. destruct filter as [querySpec|]; [|reflexivity].
    cbn [queryItems].
    destruct (drainPager _ []) as [e|lines]; [reflexivity|].
    pose proof (loadAllLines_ret lines model err) as Hret.
    destruct (loadAllLines lines model) as [r model']. simpl in *. congruence.
Qed.

(** X10: a load reads and never writes: [LoadPolicy] and
    [LoadFilteredPolicy] leave the container as it was and send one query,
    both to the partition ["p"], whatever the filter asks for; a filter
    that is not a [SqlQuerySpec] sends nothing. *)
Theorem loads_send_one_query
    (a : adapter) (model : Model) (querySpec : SqlQuerySpec) (w : World S) :
  client (LoadPolicy a model w).2 = client w /\
  calls (LoadPolicy a model w).2 = calls w ++ [CallQuery "SELECT * FROM c" "p" []] /\
  client (LoadFilteredPolicy a model (FilterSpec querySpec) w).2 = client w /\
  calls (LoadFilteredPolicy a model (FilterSpec querySpec) w).2 =
  calls w ++ [CallQuery (Query querySpec) "p" (Parameters querySpec)] /\
  (LoadFilteredPolicy a model FilterOther w).2 = w.
Proof.
  unfold LoadPolicy, LoadFilteredPolicy. cbn [queryItems].
  repeat split;
    (destruct (drainPager _ []) as [e|lines]; [reflexivity|];
     now destruct (loadAllLines lines model)).
Qed.

End LoadProperties.

Lemma LoadPolicy_appends_fetched_witness :
  exists model',
    LoadPolicy freshAdapter rbacModel aliceWorld =
    (RetNil, setFiltered freshAdapter false, model',
     mkWorld (client aliceWorld) (calls aliceWorld ++ [CallQuery "SELECT * FROM c" "p" []])) /\
    (forall key,
       rulesAt model' (firstChar key) key =
       (fun old => old ++ map scanTokens
                            (linesOf key (concat [[ {| ID := "a1"; PType := "p"; V0 := "alice";
                                                       V1 := "data1"; V2 := "read"; V3 := "";
                                                       V4 := ""; V5 := "" |} ]])))
         <$> rulesAt rbacModel (firstChar key) key).
Proof.
  apply (LoadPolicy_appends_fetched freshAdapter rbacModel aliceWorld).
  - reflexivity.
  - repeat constructor; try discriminate; eexists; reflexivity.
Defined.

Lemma LoadFilteredPolicy_appends_fetched_witness :
  exists model',
    LoadFilteredPolicy freshAdapter rbacModel aliceFilter aliceWorld =
    (RetNil, setFiltered freshAdapter true, model',
     mkWorld (client aliceWorld)
       (calls aliceWorld ++
        [CallQuery "SELECT * FROM c WHERE c.v0 = @v0" "p"
           [{| Name := "@v0"; Value := "alice" |}]])) /\
    (forall key,
       rulesAt model' (firstChar key) key =
       (fun old => old ++ map scanTokens
                            (linesOf key (concat [[ {| ID := "a1"; PType := "p"; V0 := "alice";
                                                       V1 := "data1"; V2 := "read"; V3 := "";
                                                       V4 := ""; V5 := "" |} ]])))
         <$> rulesAt rbacModel (firstChar key) key).
Proof.
  apply (LoadFilteredPolicy_appends_fetched freshAdapter rbacModel
           {| Query := "SELECT * FROM c WHERE c.v0 = @v0";
              Parameters := [{| Name := "@v0"; Value := "alice" |}] |}
           aliceWorld).
  - reflexivity.
  - repeat constructor; try discriminate; eexists; reflexivity.
Defined.

Lemma load_error_keeps_model_witness :
  (LoadFilteredPolicy freshAdapter rbacModel aliceFilter offlineWorld).1.1.1 =
  RetErr unavailable /\
  (LoadFilteredPolicy freshAdapter rbacModel aliceFilter offlineWorld).1.2 = rbacModel.
Proof.
  split; [reflexivity|].
  apply (load_error_keeps_model freshAdapter rbacModel aliceFilter offlineWorld unavailable).
  reflexivity.
Defined.

(** ** Saving *)

Section SaveProperties.

Variable Checksum : Z -> list byte -> list byte.
Variable rangeOrder : forall A : Type, gmap string A -> list (string * A).
Hypothesis rangeOrder_perm :
  forall (A : Type) (m : gmap string A), rangeOrder A m ≡ₚ map_to_list m.

Context {S : Type} `{ContainerClient S}.

Lemma save_world (w : World S) (policy : CasbinRule) :
  (save w policy).2 =
  mkWorld (CreateItem (client w) (PType policy) policy).2 (calls w ++ [createCall policy]).
Proof.
  unfold save, createItem.
  destruct (CreateItem (client w) (PType policy) policy) as [[err|statusCode] s']; simpl;
    [reflexivity|].
  now destruct (negb (statusCode =? 201)).
Qed.

Lemma saveLines_calls (lines : list CasbinRule) (w : World S) :
  exists n,
    (n <= length lines)%nat /\
    calls (saveLines lines w).2 = calls w ++ map createCall (take n lines) /\
    ((saveLines lines w).1 = None -> n = length lines).
Proof.
  revert w. induction lines as [|line rest IH]; intros w.
  - exists 0%nat. simpl. rewrite app_nil_r. repeat split; lia.
  - simpl. pose proof (save_world w line) as Hworld.
    destruct (save w line) as [[err|] w1]; simpl in Hworld; subst w1.
    + exists 1%nat. simpl. repeat split; [lia | discriminate].
    + destruct (IH (mkWorld (CreateItem (client w) (PType line) line).2
                      (calls w ++ [createCall line]))) as (n & Hn & Hcalls & Hdone).
      exists (Datatypes.S n). simpl. rewrite Hcalls. simpl. rewrite <- app_assoc.
      repeat split; [lia|]. intros Hnone. now rewrite (Hdone Hnone).
Qed.

(** X12: a full load lifts the refusal to save: with the adapter that
    [LoadPolicy] leaves, however that load ended and whatever the flag was
    before, [SavePolicy] goes on to delete the container. *)
Theorem SavePolicy_after_LoadPolicy
    (a : adapter) (model model2 : Model) (w w2 : World S) :
  exists later,
    calls (SavePolicy Checksum rangeOrder (LoadPolicy a model w).1.1.2 model2 w2).2 =
    calls w2 ++ CallDelete :: later.
Proof.
  unfold SavePolicy. rewrite LoadPolicy_clears_flag.
  unfold dropCollection, deleteContainer, createContainer.
  destruct (Delete (client w2)) as [[err|] s1]; simpl; [now exists []|].
  destruct (CreateContainer s1 _) as [[err|] s2]; simpl.
  { eexists. rewrite <- app_assoc. reflexivity. }
  match goal with
  | |- context [saveLines ?lines ?w3] =>
      destruct (saveLines_calls lines w3) as (n & _ & Hcalls & _);
      destruct (saveLines lines w3) as [e w4]
  end.
  simpl in *. rewrite Hcalls. simpl. rewrite <- !app_assoc. simpl.
  eexists. reflexivity.
Qed.

(** X13: the records written for a section are the encodings of its rules
    and nothing else: a record is among them exactly when it encodes a rule
    of an assertion of that section under the key of that assertion. A
    section that the model lacks gives no record. *)
Theorem sectionLines_encode_rules (model : Model) (sec : string) (line : CasbinRule) :
  line ∈ sectionLines Checksum rangeOrder model sec <->
  exists am ptype ast rule,
    model !! sec = Some am /\ am !! ptype = Some ast /\ rule ∈ Policy ast /\
    line = savePolicyLine Checksum ptype rule.
Proof.
  unfold sectionLines. rewrite list_elem_of_In, in_flat_map. split.
  - intros ([ptype ast] & Hentry & Hline). simpl in Hline.
    destruct (model !! sec) as [am|] eqn:Hsec; [|now apply in_nil in Hentry].
    apply in_map_iff in Hline as (rule & <- & Hrule).
    exists am, ptype, ast, rule. repeat split.
    + apply elem_of_map_to_list. rewrite <- (rangeOrder_perm Assertion am).
      now apply list_elem_of_In.
    + now apply list_elem_of_In.
  - intros (am & ptype & ast & rule & Hsec & Hast & Hrule & ->).
    rewrite Hsec. exists (ptype, ast). split.
    + apply list_elem_of_In. rewrite (rangeOrder_perm Assertion am).
      now apply elem_of_map_to_list.
    + simpl. apply in_map. now apply list_elem_of_In.
Qed.

(** X14: [save] reports success exactly when [CreateItem] answers with
    status 201; on every other answer it returns an error, and the store is
    in each case as [CreateItem] left it. *)
Theorem save_status (w : World S) (policy : CasbinRule) :
  ((save w policy).1 = None <->
   (CreateItem (client w) (PType policy) policy).1 = inr 201) /\
  (save w policy).2 =
  mkWorld (CreateItem (client w) (PType policy) policy).2
    (calls w ++ [CallCreateItem (PType policy) policy]).
Proof.
  split; [|apply save_world].
  unfold save, createItem.
  destruct (CreateItem (client w) (PType policy) policy) as [[err|statusCode] s']; simpl.
  - split; discriminate.
  - destruct (Z.eqb_spec statusCode 201) as [->|Hne]; simpl.
    + split; reflexivity.
    + split; [discriminate | intros [= ?]; contradiction].
Qed.

(** X15: [AddPolicy] sends one call, which creates the encoded rule in the
    partition of its policy type, and [RemovePolicy] sends one call, which
    deletes in that partition the identifier of that encoded rule; neither
    looks at its section argument. *)
Theorem AddPolicy_RemovePolicy_calls
    (sec sec' ptype : string) (rule : list string) (w : World S) :
  calls (AddPolicy Checksum sec ptype rule w).2 =
  calls w ++ [CallCreateItem ptype (savePolicyLine Checksum ptype rule)] /\
  calls (RemovePolicy Checksum sec ptype rule w).2 =
  calls w ++ [CallDeleteItem ptype (policyID Checksum ptype rule)] /\
  AddPolicy Checksum sec ptype rule w = AddPolicy Checksum sec' ptype rule w /\
  RemovePolicy Checksum sec ptype rule w = RemovePolicy Checksum sec' ptype rule w.
Proof.
  split; [|split; [|split; reflexivity]].
  - unfold AddPolicy.
    pose proof (save_world w (savePolicyLine Checksum ptype rule)) as Hworld.
    destruct (save w (savePolicyLine Checksum ptype rule)) as [e w1].
    simpl in *. now rewrite Hworld.
  - unfold RemovePolicy, deleteItem. reflexivity.
Qed.

End SaveProperties.

Lemma sectionLines_encode_rules_witness :
  savePolicyLine lengthChecksum "g" ["alice"; "admin"]
  ∈ sectionLines lengthChecksum listOrder aliceModel "g".
Proof.
  apply (sectionLines_encode_rules lengthChecksum listOrder listOrder_perm aliceModel "g").
  exists {[ "g" := mkAssertion "g" "_, _" [] [["alice"; "admin"]] ]}, "g",
    (mkAssertion "g" "_, _" [] [["alice"; "admin"]]), ["alice"; "admin"].
  repeat split; try reflexivity. simpl. apply list_elem_of_here.
Defined.

(** ** Removing by filter *)

Lemma slotValue_none (k fieldIndex : Z) (fieldValues : list string) :
  Forall (fun v => v = "") fieldValues \/ 5 < fieldIndex \/ fieldIndex + len fieldValues <= 0 ->
  0 <= k <= 5 ->
  slotValue k fieldIndex fieldValues = None.
Proof.
  intros Hcase Hk.
  destruct (slotValue k fieldIndex fieldValues) as [v|] eqn:Hv; [|reflexivity].
  apply slotValue_participates in Hv as (Hwin & Hget & Hne).
  destruct Hcase as [Hall|[Hhigh|Hlow]]; [|lia|lia].
  rewrite Forall_forall in Hall.
  exfalso. apply Hne, Hall. now apply list_elem_of_lookup_2 in Hget.
Qed.

Section RemoveProperties.

Variable rangeOrder : forall A : Type, gmap string A -> list (string * A).
Hypothesis rangeOrder_perm :
  forall (A : Type) (m : gmap string A), rangeOrder A m ≡ₚ map_to_list m.

Context {S : Type} `{ContainerClient S}.

Lemma deletePolicies_prefix (policies : list CasbinRule) (w : World S) :
  exists n,
    (n <= length policies)%nat /\
    calls (deletePolicies policies w).2 = calls w ++ map deleteCall (take n policies) /\
    ((deletePolicies policies w).1 = None -> n = length policies).
Proof.
  revert w. induction policies as [|policy rest IH]; intros w.
  - exists 0%nat. simpl. rewrite app_nil_r. repeat split; lia.
  - simpl. destruct (DeleteItem (client w) (PType policy) (ID policy)) as [[err|] s']; simpl.
    + exists 1%nat. simpl. repeat split; [lia | discriminate].
    + destruct (IH (mkWorld s' (calls w ++ [CallDeleteItem (PType policy) (ID policy)])))
        as (n & Hn & Hcalls & Hdone).
      exists (Datatypes.S n). simpl. rewrite Hcalls. simpl. rewrite <- app_assoc.
      repeat split; [lia|]. intros Hnone. now rewrite (Hdone Hnone).
Qed.

(** X17: when no value is given, or every given value is empty, or the
    window of the values lies above slot 5 or below slot 0, the selector is
    empty and the query is the equality on the policy type alone, with its
    one parameter: it selects every record of that policy type. *)
Theorem RemoveFilteredPolicy_without_slot
    (sec ptype : string) (fieldIndex : Z) (fieldValues : list string) (w : World S) :
  isInt fieldIndex -> len fieldValues <= maxInt - 5 ->
  Forall (fun v => v = "") fieldValues \/ 5 < fieldIndex \/ fieldIndex + len fieldValues <= 0 ->
  buildSelector fieldIndex fieldValues = Done ∅ /\
  exists later,
    calls (RemoveFilteredPolicy rangeOrder sec ptype fieldIndex fieldValues w).2 =
    calls w ++
      CallQuery "SELECT * FROM root WHERE root.pType = @pType" ptype
        [{| Name := "@pType"; Value := ptype |}]
      :: later.
Proof.
  intros Hint Hlen Hcase.
  assert (Hsel : buildSelector fieldIndex fieldValues = Done ∅).
  { rewrite (buildSelector_spec _ _ Hint Hlen).
    now rewrite !(slotValue_none _ _ _ Hcase) by lia. }
  split; [exact Hsel|].
  destruct (RemoveFilteredPolicy_run rangeOrder sec ptype fieldIndex fieldValues w ∅ Hsel)
    as (later & Hcalls & _).
  exists later. rewrite Hcalls.
  assert (Hnil : rangeOrder string ∅ = []).
  { apply Permutation_nil. symmetry. rewrite (rangeOrder_perm string ∅).
    now rewrite map_to_list_empty. }
  rewrite Hnil. reflexivity.
Qed.

(** X18: the parameters of the query have pairwise different names, the
    first of them [@pType], and there are at most seven of them: one more
    than the selector has entries. *)
Theorem RemoveFilteredPolicy_parameters
    (ptype : string) (fieldIndex : Z) (fieldValues : list string) :
  isInt fieldIndex -> len fieldValues <= maxInt - 5 ->
  exists selector,
    buildSelector fieldIndex fieldValues = Done selector /\
    NoDup (map Name (buildQuery ptype (rangeOrder string selector)).2) /\
    length (buildQuery ptype (rangeOrder string selector)).2 = Datatypes.S (size selector) /\
    (size selector <= 6)%nat.
Proof.
  intros Hint Hlen.
  destruct (buildSelector_completes fieldIndex fieldValues Hint) as [selector Hsel]; [lia|].
  destruct (buildSelector_lookup _ _ _ Hint Hlen Hsel) as [_ Hdom].
  exists selector. split; [exact Hsel|].
  rewrite buildQuery_closed. cbn [snd map Name].
  assert (Hkeys : forall name, name ∈ (rangeOrder string selector).*1 -> name ∈ slotNames.*2).
  { intros name Hin. apply list_elem_of_fmap in Hin as ([name' v] & -> & Hin).
    apply Hdom. exists v. apply elem_of_map_to_list.
    now rewrite <- (rangeOrder_perm string selector). }
  assert (Hnodup : NoDup (rangeOrder string selector).*1).
  { rewrite (rangeOrder_perm string selector). apply NoDup_fst_map_to_list. }
  assert (Hlength : length (rangeOrder string selector) = size selector).
  { rewrite (rangeOrder_perm string selector). apply length_map_to_list. }
  split; [|split].
  - rewrite map_map. change (fun x => Name (parameterOf x)) with (fun x : string * string => "@" +:+ x.1).
    apply NoDup_cons. split.
    + intros Hin. apply list_elem_of_fmap in Hin as ([name v] & Heq & Hin).
      change (String "@" "pType" = String "@" name) in Heq. injection Heq as <-.
      assert (Hname : "pType" ∈ slotNames.*2).
      { apply Hkeys. apply list_elem_of_fmap. now exists ("pType", v). }
      unfold slotNames in Hname. simpl in Hname.
      repeat (apply elem_of_cons in Hname as [Hname|Hname]; [discriminate Hname|]).
      now apply elem_of_nil in Hname.
    + replace (map (fun x : string * string => "@" +:+ x.1) (rangeOrder string selector))
        with (String.append "@" <$> (rangeOrder string selector).*1)
        by (rewrite <- list_fmap_compose; reflexivity).
      now apply NoDup_fmap_2; [apply _|].
  - simpl. now rewrite length_map, Hlength.
  - rewrite <- Hlength, <- (length_fmap fst).
    change 6%nat with (length slotNames.*2).
    apply submseteq_length, NoDup_submseteq; [exact Hnodup | exact Hkeys].
Qed.

End RemoveProperties.

Lemma RemoveFilteredPolicy_without_slot_witness :
  buildSelector 0 [""; ""] = Done ∅ /\
  exists later,
    calls (RemoveFilteredPolicy listOrder "p" "p" 0 [""; ""] aliceWorld).2 =
    calls aliceWorld ++
      CallQuery "SELECT * FROM root WHERE root.pType = @pType" "p"
        [{| Name := "@pType"; Value := "p" |}]
      :: later.
Proof.
  apply (RemoveFilteredPolicy_without_slot listOrder listOrder_perm "p" "p" 0 [""; ""]
           aliceWorld).
  - unfold isInt, minInt, maxInt. lia.
  - unfold len, maxInt. simpl. lia.
  - left. repeat constructor.
Defined.

Lemma RemoveFilteredPolicy_parameters_witness :
  exists selector,
    buildSelector (-1) ["x"; "y"; "z"] = Done selector /\
    NoDup (map Name (buildQuery "p" (listOrder string selector)).2) /\
    length (buildQuery "p" (listOrder string selector)).2 = Datatypes.S (size selector) /\
    (size selector <= 6)%nat.
Proof.
  apply (RemoveFilteredPolicy_parameters listOrder listOrder_perm "p" (-1) ["x"; "y"; "z"]).
  - unfold isInt, minInt, maxInt. lia.
  - unfold len, maxInt. simpl. lia.
Defined.

(** ** The adapter on the in-memory container, in general *)

Lemma existsb_recordKey (documents : list CasbinRule) (partitionKey id : string) :
  (partitionKey, id) ∉ map recordKey documents ->
  existsb (fun d => String.eqb (PType d) partitionKey && String.eqb (ID d) id) documents = false.
Proof.
  induction documents as [|d documents IH]; intros Hnot; [reflexivity|].
  simpl. apply not_elem_of_cons in Hnot as [Hne Hrest].
  rewrite (IH Hrest), orb_false_r.
  destruct (String.eqb_spec (PType d) partitionKey) as [<-|]; [|reflexivity].
  destruct (String.eqb_spec (ID d) id) as [<-|]; [|reflexivity].
  now contradiction Hne.
Qed.

Lemma filter_recordKey (documents : list CasbinRule) (partitionKey id : string) :
  (partitionKey, id) ∉ map recordKey documents ->
  List.filter
    (fun d => negb (String.eqb (PType d) partitionKey && String.eqb (ID d) id)) documents =
  documents.
Proof.
  induction documents as [|d documents IH]; intros Hnot; [reflexivity|].
  simpl. apply not_elem_of_cons in Hnot as [Hne Hrest].
  rewrite (IH Hrest).
  destruct (String.eqb_spec (PType d) partitionKey) as [<-|]; [|reflexivity].
  destruct (String.eqb_spec (ID d) id) as [<-|]; [|reflexivity].
  now contradiction Hne.
Qed.

Lemma save_memWorld (documents : list CasbinRule) (log : list Call) (line : CasbinRule) :
  recordKey line ∉ map recordKey documents ->
  save (memWorld documents log) line =
  (None, memWorld (documents ++ [line]) (log ++ [createCall line])).
Proof.
  intros Hnot. unfold save, createItem, memWorld. simpl. unfold memCreateItem. simpl.
  rewrite String.eqb_refl. simpl.
  now rewrite (existsb_recordKey _ _ _ Hnot).
Qed.

Lemma save_memWorld_conflict (documents : list CasbinRule) (log : list Call)
    (line : CasbinRule) :
  save (memWorld (documents ++ [line]) log) line =
  (Some "409 Conflict", memWorld (documents ++ [line]) (log ++ [createCall line])).
Proof.
  unfold save, createItem, memWorld. simpl. unfold memCreateItem. simpl.
  rewrite String.eqb_refl. simpl.
  rewrite existsb_app. simpl. rewrite !String.eqb_refl. simpl.
  now rewrite orb_true_r.
Qed.

Lemma deleteItem_memWorld_last (documents : list CasbinRule) (log : list Call)
    (line : CasbinRule) :
  recordKey line ∉ map recordKey documents ->
  deleteItem (memWorld (documents ++ [line]) log) (PType line) (ID line) =
  (None, memWorld documents (log ++ [deleteCall line])).
Proof.
  intros Hnot. unfold deleteItem, memWorld. simpl. unfold memDeleteItem. simpl.
  rewrite existsb_app. simpl. rewrite !String.eqb_refl. simpl.
  rewrite orb_true_r. rewrite List.filter_app. simpl. rewrite !String.eqb_refl. simpl.
  rewrite app_nil_r. now rewrite (filter_recordKey _ _ _ Hnot).
Qed.

Lemma saveLines_memWorld (lines documents : list CasbinRule) (log : list Call) :
  NoDup (map recordKey (documents ++ lines)) ->
  saveLines lines (memWorld documents log) =
  (None, memWorld (documents ++ lines) (log ++ map createCall lines)).
Proof.
  revert documents log. induction lines as [|line rest IH]; intros documents log Hnodup.
  - simpl. now rewrite !app_nil_r.
  - simpl saveLines. rewrite save_memWorld.
    + rewrite IH.
      * simpl. now rewrite <- !app_assoc.
      * now rewrite <- app_assoc.
    + rewrite map_app in Hnodup. simpl in Hnodup.
      apply NoDup_app in Hnodup as (_ & Hdisjoint & _).
      intros Hin. apply (Hdisjoint _ Hin). apply list_elem_of_here.
Qed.

Lemma memQuery_all (documents : list CasbinRule) (partitionKey : string) :
  memQuery {| docs := documents; online := true |} "SELECT * FROM c" partitionKey [] =
  map pageOf [linesOf partitionKey documents].
Proof.
  unfold memQuery, pageOf, linesOf. simpl. do 2 f_equal.
  f_equal. induction documents as [|d documents IH]; [reflexivity|].
  simpl. rewrite andb_true_r. now rewrite IH.
Qed.

Lemma linesOf_decodable (model : Model) (documents : list CasbinRule) (key : string)
    (ast : Assertion) :
  key <> "" ->
  assertionAt model (firstChar key) key = Some ast ->
  Forall (decodable model) (linesOf key documents).
Proof.
  intros Hkey Hast. apply Forall_forall. intros line Hin.
  apply list_elem_of_In, filter_In in Hin as [_ Heq].
  apply String.eqb_eq in Heq. unfold decodable. rewrite Heq. split; [exact Hkey | eauto].
Qed.

Lemma linesOf_linesOf (key key' : string) (documents : list CasbinRule) :
  key' <> key -> linesOf key' (linesOf key documents) = [].
Proof.
  intros Hne. unfold linesOf.
  induction documents as [|d documents IH]; [reflexivity|].
  simpl. destruct (String.eqb_spec (PType d) key) as [Heq|]; [|exact IH].
  simpl. rewrite IH.
  destruct (String.eqb_spec (PType d) key'); [congruence | reflexivity].
Qed.

Lemma linesOf_idem (key : string) (documents : list CasbinRule) :
  linesOf key (linesOf key documents) = linesOf key documents.
Proof.
  unfold linesOf. induction documents as [|d documents IH]; [reflexivity|].
  simpl. destruct (String.eqb (PType d) key) eqn:Heq; [|exact IH].
  simpl. now rewrite Heq, IH.
Qed.

Lemma LoadPolicy_memWorld (a : adapter) (model : Model) (documents : list CasbinRule)
    (log : list Call) :
  LoadPolicy a model (memWorld documents log) =
  (let '(r, model') := loadAllLines (linesOf "p" documents) model in
   (r, setFiltered a false, model',
    memWorld documents (log ++ [CallQuery "SELECT * FROM c" "p" []]))).
Proof.
  unfold LoadPolicy, memWorld. cbn [queryItems client calls NewQueryItemsPager memStore_client].
  rewrite memQuery_all.
  pose proof (drainPager_pages [linesOf "p" documents] [] []) as Hdrain.
  rewrite app_nil_r in Hdrain. rewrite Hdrain. simpl concat. rewrite app_nil_r.
  reflexivity.
Qed.

(** X19: on a container partitioned by policy type, [LoadPolicy] loads the
    records whose policy type is exactly ["p"] and no other: the rules of
    ["p"] grow by the decoded records of that partition, in order, and the
    rule list of every other policy type, such as ["g"], ["g2"] or ["p2"],
    is as it was, whatever the container holds for it. *)
Theorem LoadPolicy_memStore
    (a : adapter) (model : Model) (ast : Assertion) (documents : list CasbinRule)
    (log : list Call) :
  assertionAt model "p" "p" = Some ast ->
  exists model',
    LoadPolicy a model (memWorld documents log) =
    (RetNil, setFiltered a false, model',
     memWorld documents (log ++ [CallQuery "SELECT * FROM c" "p" []])) /\
    rulesAt model' "p" "p" = Some (Policy ast ++ map scanTokens (linesOf "p" documents)) /\
    (forall key, key <> "p" ->
                 rulesAt model' (firstChar key) key = rulesAt model (firstChar key) key) /\
    (forall sec key, sec <> firstChar key ->
                     assertionAt model' sec key = assertionAt model sec key).
Proof.
  intros Hast.
  destruct (loadAllLines_rules (linesOf "p" documents) model)
    as (model' & Hrun & Hrules & Hframe).
  { apply (linesOf_decodable model documents "p" ast); [discriminate | exact Hast]. }
  exists model'. split; [|split; [|split]].
  - now rewrite LoadPolicy_memWorld, Hrun.
  - specialize (Hrules "p"). change (firstChar "p") with "p" in Hrules.
    rewrite Hrules. unfold rulesAt. rewrite Hast. simpl. now rewrite linesOf_idem.
  - intros key Hne. rewrite (Hrules key), (linesOf_linesOf _ _ _ Hne). simpl.
    destruct (rulesAt model (firstChar key) key) as [old|]; simpl; [|reflexivity].
    now rewrite app_nil_r.
  - exact Hframe.
Qed.

Lemma LoadPolicy_memStore_witness :
  exists model',
    LoadPolicy freshAdapter rbacModel (memWorld (docs (client aliceWorld)) []) =
    (RetNil, setFiltered freshAdapter false, model',
     memWorld (docs (client aliceWorld)) ([] ++ [CallQuery "SELECT * FROM c" "p" []])) /\
    rulesAt model' "p" "p" =
    Some (Policy (mkAssertion "p" "sub, obj, act" ["p_sub"; "p_obj"; "p_act"] []) ++
          map scanTokens (linesOf "p" (docs (client aliceWorld)))) /\
    (forall key, key <> "p" ->
                 rulesAt model' (firstChar key) key = rulesAt rbacModel (firstChar key) key) /\
    (forall sec key, sec <> firstChar key ->
                     assertionAt model' sec key = assertionAt rbacModel sec key).
Proof.
  apply (LoadPolicy_memStore freshAdapter rbacModel
           (mkAssertion "p" "sub, obj, act" ["p_sub"; "p_obj"; "p_act"] [])
           (docs (client aliceWorld)) []).
  reflexivity.
Defined.

Section MemStoreProperties.

Variable Checksum : Z -> list byte -> list byte.
Variable rangeOrder : forall A : Type, gmap string A -> list (string * A).
Hypothesis rangeOrder_perm :
  forall (A : Type) (m : gmap string A), rangeOrder A m ≡ₚ map_to_list m.

(** X20: on the in-memory container, adding a rule whose record is not yet
    stored appends that record; adding it once more is refused with a
    conflict and changes nothing; removing it gives back the documents from
    before the addition. *)
Theorem AddPolicy_RemovePolicy_memStore
    (sec ptype : string) (rule : list string) (documents : list CasbinRule)
    (log log' : list Call) :
  recordKey (savePolicyLine Checksum ptype rule) ∉ map recordKey documents ->
  AddPolicy Checksum sec ptype rule (memWorld documents log) =
  (RetNil,
   memWorld (documents ++ [savePolicyLine Checksum ptype rule])
     (log ++ [createCall (savePolicyLine Checksum ptype rule)])) /\
  AddPolicy Checksum sec ptype rule
    (memWorld (documents ++ [savePolicyLine Checksum ptype rule]) log') =
  (RetErr "409 Conflict",
   memWorld (documents ++ [savePolicyLine Checksum ptype rule])
     (log' ++ [createCall (savePolicyLine Checksum ptype rule)])) /\
  RemovePolicy Checksum sec ptype rule
    (memWorld (documents ++ [savePolicyLine Checksum ptype rule]) log') =
  (RetNil,
   memWorld documents (log' ++ [deleteCall (savePolicyLine Checksum ptype rule)])).
Proof.
  intros Hnot. unfold AddPolicy, RemovePolicy.
  rewrite (save_memWorld _ _ _ Hnot), save_memWorld_conflict, deleteItem_memWorld_last;
    [repeat split | exact Hnot].
Qed.

(** X21: on the in-memory container a [SavePolicy] that is not refused and
    whose records have pairwise different keys returns nil and replaces the
    collection: the documents from before are gone, and the container holds
    the records of section ["p"] followed by those of section ["g"]. *)
Theorem SavePolicy_memStore_replaces
    (a : adapter) (model : Model) (documents : list CasbinRule) (log : list Call) :
  filtered a = false ->
  NoDup (map recordKey (sectionLines Checksum rangeOrder model "p" ++
                        sectionLines Checksum rangeOrder model "g")) ->
  SavePolicy Checksum rangeOrder a model (memWorld documents log) =
  (RetNil,
   memWorld (sectionLines Checksum rangeOrder model "p" ++
             sectionLines Checksum rangeOrder model "g")
     (log ++ CallDelete :: CallCreateContainer (containerName a)
          :: map createCall (sectionLines Checksum rangeOrder model "p" ++
                             sectionLines Checksum rangeOrder model "g"))).
Proof.
  intros Hflag Hnodup. unfold SavePolicy. rewrite Hflag.
  unfold dropCollection, deleteContainer, createContainer, memWorld. simpl.
  fold (memWorld [] ((log ++ [CallDelete]) ++ [CallCreateContainer (containerName a)])).
  rewrite saveLines_memWorld by exact Hnodup.
  simpl. now rewrite <- !app_assoc.
Qed.

Lemma rangeOrder_singleton (A : Type) (k : string) (v : A) :
  rangeOrder A {[ k := v ]} = [(k, v)].
Proof.
  apply Permutation_singleton_r.
  rewrite (rangeOrder_perm A {[ k := v ]}). now rewrite map_to_list_singleton.
Qed.

Lemma sectionLines_ptype (model : Model) (sec : string) (line : CasbinRule) :
  line ∈ sectionLines Checksum rangeOrder model sec ->
  exists am ast, model !! sec = Some am /\ am !! PType line = Some ast.
Proof.
  unfold sectionLines. rewrite list_elem_of_In, in_flat_map.
  intros ([ptype ast] & Hentry & Hline). simpl in Hline.
  destruct (model !! sec) as [am|] eqn:Hsec; [|now apply in_nil in Hentry].
  apply in_map_iff in Hline as (rule & <- & _).
  exists am, ast. split; [reflexivity|]. simpl.
  apply elem_of_map_to_list. rewrite <- (rangeOrder_perm Assertion am).
  now apply list_elem_of_In.
Qed.

Lemma linesOf_none (key : string) (lines : list CasbinRule) :
  (forall line, line ∈ lines -> PType line <> key) -> linesOf key lines = [].
Proof.
  induction lines as [|line lines IH]; intros Hall; [reflexivity|].
  unfold linesOf. simpl.
  destruct (String.eqb_spec (PType line) key) as [Heq|_].
  - exfalso. apply (Hall line); [apply list_elem_of_here | exact Heq].
  - apply IH. intros l Hl. apply Hall. now apply list_elem_of_further.
Qed.

Lemma linesOf_encoded (ptype : string) (rules : list (list string)) :
  linesOf ptype (map (savePolicyLine Checksum ptype) rules) =
  map (savePolicyLine Checksum ptype) rules.
Proof.
  induction rules as [|rule rules IH]; [reflexivity|].
  unfold linesOf in *. simpl. now rewrite String.eqb_refl, IH.
Qed.

Lemma scanTokens_encoded (ptype : string) (rules : list (list string)) :
  Forall (fun rule => Forall (fun v => v <> "") rule /\ (length rule <= 6)%nat) rules ->
  map scanTokens (map (savePolicyLine Checksum ptype) rules) = rules.
Proof.
  induction 1 as [|rule rules [Hvalues Hlength] _ IH]; [reflexivity|].
  simpl. now rewrite (scanTokens_savePolicyLine Checksum ptype rule Hvalues Hlength), IH.
Qed.

End MemStoreProperties.

(** * Lemmas on the in-memory container: witnesses *)

Lemma AddPolicy_RemovePolicy_memStore_witness :
  AddPolicy lengthChecksum "p" "p" ["alice"; "data1"; "read"] (memWorld [] []) =
  (RetNil,
   memWorld ([] ++ [savePolicyLine lengthChecksum "p" ["alice"; "data1"; "read"]])
     ([] ++ [createCall (savePolicyLine lengthChecksum "p" ["alice"; "data1"; "read"])])) /\
  AddPolicy lengthChecksum "p" "p" ["alice"; "data1"; "read"]
    (memWorld ([] ++ [savePolicyLine lengthChecksum "p" ["alice"; "data1"; "read"]]) []) =
  (RetErr "409 Conflict",
   memWorld ([] ++ [savePolicyLine lengthChecksum "p" ["alice"; "data1"; "read"]])
     ([] ++ [createCall (savePolicyLine lengthChecksum "p" ["alice"; "data1"; "read"])])) /\
  RemovePolicy lengthChecksum "p" "p" ["alice"; "data1"; "read"]
    (memWorld ([] ++ [savePolicyLine lengthChecksum "p" ["alice"; "data1"; "read"]]) []) =
  (RetNil,
   memWorld [] ([] ++ [deleteCall (savePolicyLine lengthChecksum "p" ["alice"; "data1"; "read"])])).
Proof.
  apply (AddPolicy_RemovePolicy_memStore lengthChecksum "p" "p" ["alice"; "data1"; "read"]
           [] [] []).
  apply not_elem_of_nil.
Defined.

Lemma aliceModel_keys :
  NoDup (map recordKey (sectionLines lengthChecksum listOrder aliceModel "p" ++
                        sectionLines lengthChecksum listOrder aliceModel "g")).
Proof.
  vm_compute. apply NoDup_cons. split; [|apply NoDup_singleton].
  intros Hin. apply list_elem_of_singleton in Hin. discriminate Hin.
Qed.

Lemma SavePolicy_memStore_replaces_witness :
  SavePolicy lengthChecksum listOrder freshAdapter aliceModel
    (memWorld (docs (client aliceWorld)) []) =
  (RetNil,
   memWorld (sectionLines lengthChecksum listOrder aliceModel "p" ++
             sectionLines lengthChecksum listOrder aliceModel "g")
     ([] ++ CallDelete :: CallCreateContainer (containerName freshAdapter)
         :: map createCall (sectionLines lengthChecksum listOrder aliceModel "p" ++
                            sectionLines lengthChecksum listOrder aliceModel "g"))).
Proof.
  apply (SavePolicy_memStore_replaces lengthChecksum listOrder freshAdapter aliceModel
           (docs (client aliceWorld)) []).
  - reflexivity.
  - exact aliceModel_keys.
Defined.

(** ** Construction *)

Section ConstructionProperties.

Context {S : Type} `{AccountClient S}.

Lemma createDatabaseIfNotExist_Done (a : adapter) (s s' : S) :
  createDatabaseIfNotExist a s = Done s' ->
  (ReadDatabase s = None /\ s' = s) \/
  (exists message,
     ReadDatabase s = Some (ResponseError StatusNotFound message) /\
     CreateDatabase s (databaseName a) = (None, s')).
Proof.
  unfold createDatabaseIfNotExist.
  destruct (ReadDatabase s) as [[statusCode message|message]|]; [| discriminate |].
  - destruct (Z.eqb_spec statusCode StatusNotFound) as [->|_]; [|discriminate].
    destruct (CreateDatabase s (databaseName a)) as [[err|] s1]; [discriminate|].
    intros [= <-]. right. now exists message.
  - intros [= <-]. now left.
Qed.

Lemma createCollectionIfNotExist_Done (a : adapter) (s s' : S) :
  createCollectionIfNotExist a s = Done s' ->
  (ReadContainer s = None /\ s' = s) \/
  (exists message,
     ReadContainer s = Some (ResponseError StatusNotFound message) /\
     CreatePartitionedContainer s (containerName a) ["/pType"] = (None, s')).
Proof.
  unfold createCollectionIfNotExist.
  destruct (ReadContainer s) as [[statusCode message|message]|]; [| discriminate |].
  - destruct (Z.eqb_spec statusCode StatusNotFound) as [->|_]; [|discriminate].
    destruct (CreatePartitionedContainer s (containerName a) ["/pType"]) as [[err|] s1];
      [discriminate|].
    intros [= <-]. right. now exists message.
  - intros [= <-]. now left.
Qed.

(** X23: when [NewAdapterFromClient] returns, the adapter has the
    container and database names of the options and a cleared flag, both
    names were accepted, and the database and then the container were each
    either read without error and left alone, or reported missing with
    status 404 and created, the container with the partition key path
    [/pType]. In every other case the constructor panics. *)
Theorem NewAdapterFromClient_Done (options : Options) (s s' : S) (a : adapter) :
  NewAdapterFromClient options s = Done (a, s') ->
  a = {| containerName := ContainerName options;
         databaseName := DatabaseName options;
         filtered := false |} /\
  NewDatabase s (DatabaseName options) = None /\
  NewContainer s (DatabaseName options) (ContainerName options) = None /\
  exists s1,
    ((ReadDatabase s = None /\ s1 = s) \/
     (exists message,
        ReadDatabase s = Some (ResponseError StatusNotFound message) /\
        CreateDatabase s (DatabaseName options) = (None, s1))) /\
    ((ReadContainer s1 = None /\ s' = s1) \/
     (exists message,
        ReadContainer s1 = Some (ResponseError StatusNotFound message) /\
        CreatePartitionedContainer s1 (ContainerName options) ["/pType"] = (None, s'))).
Proof.
  unfold NewAdapterFromClient.
  destruct (NewDatabase s (DatabaseName options)) as [err|]; [discriminate|].
  destruct (NewContainer s (DatabaseName options) (ContainerName options)) as [err|];
    [discriminate|].
  destruct (createDatabaseIfNotExist _ s) as [s1|msg] eqn:Hdb; [|discriminate].
  simpl.
  destruct (createCollectionIfNotExist _ s1) as [s2|msg] eqn:Hcoll; [|discriminate].
  simpl. intros [= <- <-].
  repeat split. exists s1. split.
  - apply (createDatabaseIfNotExist_Done _ _ _ Hdb).
  - apply (createCollectionIfNotExist_Done _ _ _ Hcoll).
Qed.

End ConstructionProperties.

Lemma NewAdapterFromClient_Done_witness :
  NewAdapterFromClient defaultOptions emptyAccount =
  Done (freshAdapter,
        {| hasDatabase := Some "casbin";
           hasContainer := Some ("casbin_rule", ["/pType"]);
           readFault := None |}) /\
  exists s1,
    ((ReadDatabase emptyAccount = None /\ s1 = emptyAccount) \/
     (exists message,
        ReadDatabase emptyAccount = Some (ResponseError StatusNotFound message) /\
        CreateDatabase emptyAccount (DatabaseName defaultOptions) = (None, s1))) /\
    ((ReadContainer s1 = None /\
      {| hasDatabase := Some "casbin"; hasContainer := Some ("casbin_rule", ["/pType"]);
         readFault := None |} = s1) \/
     (exists message,
        ReadContainer s1 = Some (ResponseError StatusNotFound message) /\
        CreatePartitionedContainer s1 (ContainerName defaultOptions) ["/pType"] =
        (None,
         {| hasDatabase := Some "casbin"; hasContainer := Some ("casbin_rule", ["/pType"]);
            readFault := None |}))).
Proof.
  split; [reflexivity|].
  apply (NewAdapterFromClient_Done defaultOptions emptyAccount _ freshAdapter).
  reflexivity.
Defined.

(** * The identifier as a hexadecimal digest *)

Lemma hexDigits_hexChars (b : byte) :
  hexDigit (Byte.to_N b / 16) = hexChar (Byte.to_N b / 16) /\
  hexDigit (Byte.to_N b mod 16) = hexChar (Byte.to_N b mod 16).
Proof.
  destruct b; split; vm_compute; reflexivity.
Qed.

Lemma hexString_hexDigest (sum : list byte) : hexString sum = hexDigest sum.
Proof.
  induction sum as [|b sum IH]; [reflexivity|].
  cbn [hexString hexDigest fold_right].
  destruct (hexDigits_hexChars b) as [-> ->]. fold (hexDigest sum). now rewrite IH.
Qed.

Section IdentifierProperties.

Variable Checksum : Z -> list byte -> list byte.

(** C5: the [id] of the encoded record is the hexadecimal digest of the
    checksum, with seed 0, of the policy type followed by every value, each
    value preceded by a comma: it is the digest as the specification
    defines it, two lower case digits for each byte of the checksum, from
    which the checksum is read back. The fields [v0 .. v5] are the values by
    position, empty past the end. Identifier and fields are given as
    functions of the policy type and the values alone, so encoding the same
    pair twice gives the same [id] and the same fields. *)
Theorem savePolicyLine_id_and_fields (ptype : string) (rule : list string) :
  ID (savePolicyLine Checksum ptype rule) =
  hexDigest (Checksum 0 (list_byte_of_string (idString ptype rule))) /\
  unhexString (ID (savePolicyLine Checksum ptype rule)) =
  Some (Checksum 0 (list_byte_of_string (idString ptype rule))) /\
  String.length (ID (savePolicyLine Checksum ptype rule)) =
  Nat.mul 2 (length (Checksum 0 (list_byte_of_string (idString ptype rule)))) /\
  PType (savePolicyLine Checksum ptype rule) = ptype /\
  fields (savePolicyLine Checksum ptype rule) =
  [nth 0 rule ""; nth 1 rule ""; nth 2 rule ""; nth 3 rule ""; nth 4 rule "";
   nth 5 rule ""].
Proof.
  assert (Hid : ID (savePolicyLine Checksum ptype rule) =
                hexString (Checksum 0 (list_byte_of_string (idString ptype rule)))).
  { unfold savePolicyLine. cbn [ID]. unfold policyID, idString.
    change ([ptype] ++ rule) with (ptype :: rule). now rewrite Join_cons. }
  rewrite Hid.
  split; [apply hexString_hexDigest|].
  split; [apply unhexString_hexString|].
  split; [apply hexString_length|].
  split; [reflexivity|].
  unfold fields, savePolicyLine. cbn [V0 V1 V2 V3 V4 V5].
  now rewrite (guarded_nth 0), (guarded_nth 1), (guarded_nth 2),
    (guarded_nth 3), (guarded_nth 4), (guarded_nth 5).
Qed.

End IdentifierProperties.

(** C6 fails as stated: with the empty policy type the encoded record
    cannot be decoded, whatever the model, and with a policy type that the
    model has no assertion for it cannot be decoded either. *)
Lemma loadPolicyLine_savePolicyLine_panics :
  loadPolicyLine (savePolicyLine lengthChecksum "" ["alice"; "data1"; "read"]) rbacModel =
  Panic "slice bounds out of range [:1] with length 0" /\
  loadPolicyLine (savePolicyLine lengthChecksum "p2" ["alice"; "data1"; "read"]) rbacModel =
  Panic "invalid memory address or nil pointer dereference" /\
  ~ (forall (ptype : string) (rule : list string) (model : Model),
       Forall (fun v => v <> "") rule ->
       (length rule <= 6)%nat ->
       exists model',
         loadPolicyLine (savePolicyLine lengthChecksum ptype rule) model = Done model' /\
         exists old,
           rulesAt model' (firstChar ptype) ptype = Some (old ++ [rule])).
Proof.
  split; [reflexivity|]. split; [reflexivity|].
  intros Hclaim.
  destruct (Hclaim "" ["alice"; "data1"; "read"] rbacModel) as (model' & Hrun & _).
  - repeat constructor; discriminate.
  - simpl. lia.
  - discriminate Hrun.
Qed.

(** * Where the store calls stop *)

Section StopProperties.

Variable Checksum : Z -> list byte -> list byte.
Variable rangeOrder : forall A : Type, gmap string A -> list (string * A).

Context {S : Type} `{ContainerClient S}.

Lemma save_succeeds (w : World S) (line : CasbinRule) :
  (CreateItem (client w) (PType line) line).1 = inr 201 ->
  save w line =
  (None, mkWorld (CreateItem (client w) (PType line) line).2 (calls w ++ [createCall line])).
Proof.
  unfold save, createItem.
  destruct (CreateItem (client w) (PType line) line) as [r s']. simpl.
  now intros ->.
Qed.

Lemma save_fails (w : World S) (line : CasbinRule) :
  (CreateItem (client w) (PType line) line).1 <> inr 201 ->
  exists err,
    save w line =
    (Some err,
     mkWorld (CreateItem (client w) (PType line) line).2 (calls w ++ [createCall line])).
Proof.
  unfold save, createItem.
  destruct (CreateItem (client w) (PType line) line) as [[err|statusCode] s']; simpl.
  - intros _. now exists err.
  - intros Hne. destruct (Z.eqb_spec statusCode 201) as [->|_]; [now contradiction Hne|].
    simpl. eexists. reflexivity.
Qed.

Lemma saveLines_all (lines : list CasbinRule) (w : World S) :
  createsSucceed lines (client w) ->
  saveLines lines w =
  (None, mkWorld (clientAfterCreates lines (client w)) (calls w ++ map createCall lines)).
Proof.
  revert w. induction lines as [|line rest IH]; intros w Hall.
  - simpl. rewrite app_nil_r. now destruct w.
  - destruct Hall as [Hline Hrest]. simpl.
    rewrite (save_succeeds w line Hline), IH by exact Hrest.
    simpl. now rewrite <- app_assoc.
Qed.

Lemma saveLines_first_failure (done : list CasbinRule) (line : CasbinRule)
    (rest : list CasbinRule) (w : World S) :
  createsSucceed done (client w) ->
  (CreateItem (clientAfterCreates done (client w)) (PType line) line).1 <> inr 201 ->
  exists err,
    saveLines (done ++ line :: rest) w =
    (Some err,
     mkWorld (CreateItem (clientAfterCreates done (client w)) (PType line) line).2
       (calls w ++ map createCall (done ++ [line]))).
Proof.
  revert w. induction done as [|first done IH]; intros w Hdone Hfail.
  - simpl in *. destruct (save_fails w line Hfail) as [err Herr].
    exists err. now rewrite Herr.
  - destruct Hdone as [Hfirst Hdone]. simpl.
    rewrite (save_succeeds w first Hfirst).
    destruct (IH (mkWorld (CreateItem (client w) (PType first) first).2
                    (calls w ++ [createCall first])) Hdone Hfail) as [err Herr].
    exists err. rewrite Herr. simpl. now rewrite <- app_assoc.
Qed.

(** Every run of creates is of one of the two kinds. *)
Lemma creates_succeed_or_fail (lines : list CasbinRule) (s : S) :
  createsSucceed lines s \/
  exists done line rest,
    lines = done ++ line :: rest /\
    createsSucceed done s /\
    (CreateItem (clientAfterCreates done s) (PType line) line).1 <> inr 201.
Proof.
  revert s. induction lines as [|line lines IH]; intros s; [now left|].
  destruct (decide ((CreateItem s (PType line) line).1 = inr 201)) as [Hok|Hfail].
  - destruct (IH (CreateItem s (PType line) line).2)
      as [Hall|(done & l & rest & -> & Hdone & Hfail)].
    + left. now split.
    + right. exists (line :: done), l, rest. repeat split; assumption.
  - right. exists [], line, lines. repeat split. exact Hfail.
Qed.

(** X11: the store calls of a [SavePolicy] that is not refused, in every
    case. When deleting the container fails, that is the only call and its
    error is returned. When creating it again fails, these are the two
    calls and that error is returned: the collection is gone. Otherwise one
    item is created for each rule of section ["p"] and then of section
    ["g"], each in the partition of its policy type, in order, up to and
    including the first [CreateItem] that does not answer with status 201:
    an error is returned then, the records after it are not sent, and what
    was written before stays. When every create answers 201 all records
    are sent and nil is returned. *)
Theorem SavePolicy_store_calls (a : adapter) (model : Model) (w : World S) :
  filtered a = false ->
  (forall err s1,
     Delete (client w) = (Some err, s1) ->
     SavePolicy Checksum rangeOrder a model w =
     (RetErr err, mkWorld s1 (calls w ++ [CallDelete]))) /\
  (forall s1 err s2,
     Delete (client w) = (None, s1) ->
     CreateContainer s1 (containerName a) = (Some err, s2) ->
     SavePolicy Checksum rangeOrder a model w =
     (RetErr err,
      mkWorld s2 (calls w ++ [CallDelete; CallCreateContainer (containerName a)]))) /\
  (forall s1 s2,
     Delete (client w) = (None, s1) ->
     CreateContainer s1 (containerName a) = (None, s2) ->
     (createsSucceed (sectionLines Checksum rangeOrder model "p" ++
                      sectionLines Checksum rangeOrder model "g") s2 ->
      SavePolicy Checksum rangeOrder a model w =
      (RetNil,
       mkWorld
         (clientAfterCreates (sectionLines Checksum rangeOrder model "p" ++
                              sectionLines Checksum rangeOrder model "g") s2)
         (calls w ++ CallDelete :: CallCreateContainer (containerName a)
            :: map createCall (sectionLines Checksum rangeOrder model "p" ++
                               sectionLines Checksum rangeOrder model "g")))) /\
     (forall done line rest,
        sectionLines Checksum rangeOrder model "p" ++
        sectionLines Checksum rangeOrder model "g" = done ++ line :: rest ->
        createsSucceed done s2 ->
        (CreateItem (clientAfterCreates done s2) (PType line) line).1 <> inr 201 ->
        exists err,
          SavePolicy Checksum rangeOrder a model w =
          (RetErr err,
           mkWorld (CreateItem (clientAfterCreates done s2) (PType line) line).2
             (calls w ++ CallDelete :: CallCreateContainer (containerName a)
                :: map createCall (done ++ [line]))))).
Proof.
  intros Hflag. unfold SavePolicy. rewrite Hflag.
  unfold dropCollection, deleteContainer, createContainer.
  split; [|split].
  - intros err s1 Hdelete. now rewrite Hdelete.
  - intros s1 err s2 Hdelete Hcreate. rewrite Hdelete. simpl. rewrite Hcreate. simpl.
    now rewrite <- app_assoc.
  - intros s1 s2 Hdelete Hcreate. rewrite Hdelete. simpl. rewrite Hcreate. simpl.
    split.
    + intros Hall. rewrite saveLines_all by exact Hall. simpl.
      now rewrite <- !app_assoc.
    + intros done line rest Hsplit Hdone Hfail. rewrite Hsplit.
      destruct (saveLines_first_failure done line rest
                  (mkWorld s2 ((calls w ++ [CallDelete]) ++
                               [CallCreateContainer (containerName a)])) Hdone Hfail)
        as [err Herr].
      exists err. rewrite Herr. simpl. now rewrite <- !app_assoc.
Qed.

Lemma deletePolicies_all (policies : list CasbinRule) (w : World S) :
  deletesSucceed policies (client w) ->
  deletePolicies policies w =
  (None, mkWorld (clientAfterDeletes policies (client w))
           (calls w ++ map deleteCall policies)).
Proof.
  revert w. induction policies as [|policy rest IH]; intros w Hall.
  - simpl. rewrite app_nil_r. now destruct w.
  - destruct Hall as [Hpolicy Hrest]. simpl. unfold deleteItem.
    destruct (DeleteItem (client w) (PType policy) (ID policy)) as [e s'] eqn:Hdel.
    simpl in *. subst e. rewrite IH by exact Hrest.
    simpl. now rewrite <- app_assoc.
Qed.

Lemma deletePolicies_first_failure (done : list CasbinRule) (policy : CasbinRule)
    (rest : list CasbinRule) (err : error) (w : World S) :
  deletesSucceed done (client w) ->
  (DeleteItem (clientAfterDeletes done (client w)) (PType policy) (ID policy)).1 = Some err ->
  deletePolicies (done ++ policy :: rest) w =
  (Some err,
   mkWorld (DeleteItem (clientAfterDeletes done (client w)) (PType policy) (ID policy)).2
     (calls w ++ map deleteCall (done ++ [policy]))).
Proof.
  revert w. induction done as [|first done IH]; intros w Hdone Hfail.
  - simpl in *. unfold deleteItem.
    destruct (DeleteItem (client w) (PType policy) (ID policy)) as [e s']. simpl in *.
    now subst e.
  - destruct Hdone as [Hfirst Hdone]. cbn [clientAfterDeletes] in Hfail.
    simpl. try unfold deleteItem.
    destruct (DeleteItem (client w) (PType first) (ID first)) as [e s'] eqn:Hdel.
    simpl in *. subst e.
    rewrite (IH (mkWorld s' (calls w ++ [CallDeleteItem (PType first) (ID first)])) Hdone Hfail).
    simpl. now rewrite <- app_assoc.
Qed.

(** X16: [RemoveFilteredPolicy] deletes what its query fetched and nothing
    else. After the query built from the selector, sent to the partition of
    the policy type, it sends one delete for each fetched record, by the
    partition and the identifier of that record, in the order fetched, up
    to and including the first delete that fails: the error of that delete
    is returned and the records after it are not deleted. When every delete
    succeeds all of them are sent and nil is returned. When fetching fails
    nothing is deleted and the error is returned. *)
Theorem RemoveFilteredPolicy_deletes_fetched
    (sec ptype : string) (fieldIndex : Z) (fieldValues : list string) (w : World S) :
  isInt fieldIndex -> len fieldValues <= maxInt ->
  exists selector query parameters,
    buildSelector fieldIndex fieldValues = Done selector /\
    buildQuery ptype (rangeOrder string selector) = (query, parameters) /\
    match drainPager (NewQueryItemsPager (client w) query ptype parameters) [] with
    | inl err =>
        RemoveFilteredPolicy rangeOrder sec ptype fieldIndex fieldValues w =
        (RetErr err, mkWorld (client w) (calls w ++ [CallQuery query ptype parameters]))
    | inr policies =>
        (deletesSucceed policies (client w) ->
         RemoveFilteredPolicy rangeOrder sec ptype fieldIndex fieldValues w =
         (RetNil,
          mkWorld (clientAfterDeletes policies (client w))
            (calls w ++ CallQuery query ptype parameters :: map deleteCall policies))) /\
        (forall done policy rest err,
           policies = done ++ policy :: rest ->
           deletesSucceed done (client w) ->
           (DeleteItem (clientAfterDeletes done (client w)) (PType policy) (ID policy)).1 =
           Some err ->
           RemoveFilteredPolicy rangeOrder sec ptype fieldIndex fieldValues w =
           (RetErr err,
            mkWorld
              (DeleteItem (clientAfterDeletes done (client w)) (PType policy) (ID policy)).2
              (calls w ++ CallQuery query ptype parameters
                 :: map deleteCall (done ++ [policy]))))
    end.
Proof.
  intros Hint Hlen.
  destruct (buildSelector_completes fieldIndex fieldValues Hint Hlen) as [selector Hsel].
  unfold RemoveFilteredPolicy. rewrite Hsel.
  destruct (buildQuery ptype (rangeOrder string selector)) as [query parameters] eqn:Hquery.
  exists selector, query, parameters.
  split; [reflexivity|]. split; [exact Hquery|]. cbn [queryItems].
  destruct (drainPager _ []) as [err|policies]; [reflexivity|].
  split.
  - intros Hall.
    rewrite (deletePolicies_all policies
               (mkWorld (client w) (calls w ++ [CallQuery query ptype parameters])) Hall).
    simpl. now rewrite <- app_assoc.
  - intros done policy rest err -> Hdone Hfail.
    rewrite (deletePolicies_first_failure done policy rest err
               (mkWorld (client w) (calls w ++ [CallQuery query ptype parameters]))
               Hdone Hfail).
    simpl. now rewrite <- app_assoc.
Qed.

End StopProperties.

Lemma SavePolicy_store_calls_witness :
  exists err,
    SavePolicy lengthChecksum listOrder freshAdapter twiceModel emptyWorld =
    (RetErr err,
     mkWorld
       (CreateItem
          (clientAfterCreates
             [savePolicyLine lengthChecksum "p" ["alice"; "data1"; "read"]]
             {| docs := []; online := true |})
          (PType (savePolicyLine lengthChecksum "p" ["alice"; "data1"; "read"]))
          (savePolicyLine lengthChecksum "p" ["alice"; "data1"; "read"])).2
       (calls emptyWorld ++ CallDelete :: CallCreateContainer (containerName freshAdapter)
          :: map createCall
               ([savePolicyLine lengthChecksum "p" ["alice"; "data1"; "read"]] ++
                [savePolicyLine lengthChecksum "p" ["alice"; "data1"; "read"]]))).
Proof.
  destruct (SavePolicy_store_calls lengthChecksum listOrder freshAdapter twiceModel
              emptyWorld eq_refl) as (_ & _ & Hcreated).
  destruct (Hcreated {| docs := []; online := true |} {| docs := []; online := true |}
              eq_refl eq_refl) as [_ Hstop].
  apply (Hstop [savePolicyLine lengthChecksum "p" ["alice"; "data1"; "read"]]
           (savePolicyLine lengthChecksum "p" ["alice"; "data1"; "read"])
           [savePolicyLine lengthChecksum "p" ["bob"; "data2"; "write"]]).
  - vm_compute. reflexivity.
  - vm_compute. split; [reflexivity | exact I].
  - vm_compute. discriminate.
Defined.

Lemma RemoveFilteredPolicy_deletes_fetched_witness :
  exists selector query parameters,
    buildSelector 0 ["alice"] = Done selector /\
    buildQuery "p" (listOrder string selector) = (query, parameters) /\
    match drainPager (NewQueryItemsPager (client twoRecordsWorld) query "p" parameters) [] with
    | inl err =>
        RemoveFilteredPolicy listOrder "p" "p" 0 ["alice"] twoRecordsWorld =
        (RetErr err,
         mkWorld (client twoRecordsWorld)
           (calls twoRecordsWorld ++ [CallQuery query "p" parameters]))
    | inr policies =>
        (deletesSucceed policies (client twoRecordsWorld) ->
         RemoveFilteredPolicy listOrder "p" "p" 0 ["alice"] twoRecordsWorld =
         (RetNil,
          mkWorld (clientAfterDeletes policies (client twoRecordsWorld))
            (calls twoRecordsWorld ++ CallQuery query "p" parameters
               :: map deleteCall policies))) /\
        (forall done policy rest err,
           policies = done ++ policy :: rest ->
           deletesSucceed done (client twoRecordsWorld) ->
           (DeleteItem (clientAfterDeletes done (client twoRecordsWorld))
              (PType policy) (ID policy)).1 = Some err ->
           RemoveFilteredPolicy listOrder "p" "p" 0 ["alice"] twoRecordsWorld =
           (RetErr err,
            mkWorld
              (DeleteItem (clientAfterDeletes done (client twoRecordsWorld))
                 (PType policy) (ID policy)).2
              (calls twoRecordsWorld ++ CallQuery query "p" parameters
                 :: map deleteCall (done ++ [policy]))))
    end.
Proof.
  apply (RemoveFilteredPolicy_deletes_fetched listOrder "p" "p" 0 ["alice"] twoRecordsWorld).
  - unfold isInt, minInt, maxInt. lia.
  - unfold len, maxInt. simpl. lia.
Defined.

(** On the in-memory container the two records of alice are both deleted. *)
Example RemoveFilteredPolicy_removes_both :
  RemoveFilteredPolicy listOrder "p" "p" 0 ["alice"] twoRecordsWorld =
  (RetNil,
   memWorld []
     [CallQuery "SELECT * FROM root WHERE root.pType = @pType AND root.v0 = @v0" "p"
        [{| Name := "@pType"; Value := "p" |}; {| Name := "@v0"; Value := "alice" |}];
      CallDeleteItem "p" "a1"; CallDeleteItem "p" "a3"]).
Proof. vm_compute. reflexivity. Qed.

(** * Saving and loading again *)

Section RoundTrip.

Variable Checksum : Z -> list byte -> list byte.
Variable rangeOrder : forall A : Type, gmap string A -> list (string * A).
Hypothesis rangeOrder_perm :
  forall (A : Type) (m : gmap string A), rangeOrder A m ≡ₚ map_to_list m.

(** X22: saving and loading again gives back the permission rules whose
    values are valid UTF-8, the strings that the JSON document of a record
    holds unchanged. On the in-memory container, when the model has the one
    policy type ["p"] in section ["p"], each of its rules has at most six
    values, none of them empty and all of them valid UTF-8, no role
    assignment is filed under ["p"], and the records have pairwise
    different keys, then [SavePolicy] followed by [LoadPolicy] into a model
    returns nil twice and appends the saved rules to the rules of ["p"] of
    that model, in their order. *)
Theorem SavePolicy_LoadPolicy_roundtrip
    (a a2 : adapter) (model model2 : Model) (ast ast2 : Assertion)
    (documents : list CasbinRule) (log : list Call) :
  filtered a = false ->
  model !! "p" = Some {[ "p" := ast ]} ->
  (forall am, model !! "g" = Some am -> am !! "p" = None) ->
  Forall (fun rule => Forall (fun v => v <> "") rule /\ (length rule <= 6)%nat) (Policy ast) ->
  Forall (fun rule => Forall (fun v => validUTF8 v = true) rule) (Policy ast) ->
  NoDup (map recordKey (sectionLines Checksum rangeOrder model "p" ++
                        sectionLines Checksum rangeOrder model "g")) ->
  assertionAt model2 "p" "p" = Some ast2 ->
  (SavePolicy Checksum rangeOrder a model (memWorld documents log)).1 = RetNil /\
  (LoadPolicy a2 model2
     (SavePolicy Checksum rangeOrder a model (memWorld documents log)).2).1.1.1 = RetNil /\
  rulesAt
    (LoadPolicy a2 model2
       (SavePolicy Checksum rangeOrder a model (memWorld documents log)).2).1.2 "p" "p" =
  Some (Policy ast2 ++ Policy ast).
Proof.
  intros Hflag Hp Hg Hrules _ Hnodup Hast2.
  set (lines := sectionLines Checksum rangeOrder model "p" ++
                sectionLines Checksum rangeOrder model "g") in *.
  assert (Hsave : SavePolicy Checksum rangeOrder a model (memWorld documents log) =
                  (RetNil,
                   memWorld lines
                     (log ++ CallDelete :: CallCreateContainer (containerName a)
                          :: map createCall lines))).
  { unfold SavePolicy. rewrite Hflag.
    unfold dropCollection, deleteContainer, createContainer, memWorld. simpl.
    fold (memWorld [] ((log ++ [CallDelete]) ++ [CallCreateContainer (containerName a)])).
    fold lines. rewrite saveLines_memWorld by exact Hnodup.
    simpl. now rewrite <- !app_assoc. }
  rewrite Hsave. cbn [fst snd]. split; [reflexivity|].
  assert (Hloaded : linesOf "p" lines = map (savePolicyLine Checksum "p") (Policy ast)).
  { subst lines. unfold linesOf. rewrite List.filter_app.
    fold (linesOf "p" (sectionLines Checksum rangeOrder model "p")).
    fold (linesOf "p" (sectionLines Checksum rangeOrder model "g")).
    rewrite (linesOf_none "p" (sectionLines Checksum rangeOrder model "g")).
    - rewrite app_nil_r. unfold sectionLines at 1.
      rewrite Hp, (rangeOrder_singleton rangeOrder rangeOrder_perm).
      simpl. rewrite app_nil_r. apply linesOf_encoded.
    - intros line Hin Heq.
      destruct (sectionLines_ptype Checksum rangeOrder rangeOrder_perm _ _ _ Hin)
        as (am & ast' & Hsec & Hkey).
      rewrite Heq, (Hg am Hsec) in Hkey. discriminate Hkey. }
  destruct (loadAllLines_rules (linesOf "p" lines) model2)
    as (model' & Hrun & Hloadedrules & _).
  { apply (linesOf_decodable model2 lines "p" ast2); [discriminate | exact Hast2]. }
  rewrite LoadPolicy_memWorld, Hrun. cbn [fst snd]. split; [reflexivity|].
  specialize (Hloadedrules "p"). change (firstChar "p") with "p" in Hloadedrules.
  rewrite Hloadedrules. unfold rulesAt. rewrite Hast2. simpl.
  now rewrite linesOf_idem, Hloaded, (scanTokens_encoded Checksum "p" _ Hrules).
Qed.

End RoundTrip.

Lemma SavePolicy_LoadPolicy_roundtrip_witness :
  (SavePolicy lengthChecksum listOrder freshAdapter aliceModel (memWorld [] [])).1 = RetNil /\
  (LoadPolicy freshAdapter rbacModel
     (SavePolicy lengthChecksum listOrder freshAdapter aliceModel (memWorld [] [])).2).1.1.1 =
  RetNil /\
  rulesAt
    (LoadPolicy freshAdapter rbacModel
       (SavePolicy lengthChecksum listOrder freshAdapter aliceModel (memWorld [] [])).2).1.2
    "p" "p" =
  Some (Policy (mkAssertion "p" "sub, obj, act" ["p_sub"; "p_obj"; "p_act"] []) ++
        Policy (mkAssertion "p" "sub, obj, act" ["p_sub"; "p_obj"; "p_act"]
                  [["alice"; "data1"; "read"]])).
Proof.
  apply (SavePolicy_LoadPolicy_roundtrip lengthChecksum listOrder listOrder_perm
           freshAdapter freshAdapter aliceModel rbacModel
           (mkAssertion "p" "sub, obj, act" ["p_sub"; "p_obj"; "p_act"]
              [["alice"; "data1"; "read"]])
           (mkAssertion "p" "sub, obj, act" ["p_sub"; "p_obj"; "p_act"] [])
           [] []).
  - reflexivity.
  - reflexivity.
  - intros am Ham. vm_compute in Ham. injection Ham as <-. reflexivity.
  - repeat constructor; discriminate.
  - repeat constructor.
  - exact aliceModel_keys.
  - reflexivity.
Defined.

(** The test of well-formed UTF-8 on an accented letter, on a lone
    continuation byte and on the byte 255. *)
Example validUTF8_examples :
  validUTF8 "alice" = true /\
  validUTF8 (String (ascii_of_N 195) (String (ascii_of_N 169) "")) = true /\
  validUTF8 (String (ascii_of_N 169) "") = false /\
  validUTF8 (String (ascii_of_N 255) "") = false.
Proof. repeat split. Qed.

(** * Failures while the adapter is constructed *)

Section ConstructionFailures.

Context {S : Type} `{AccountClient S}.

(** X24: a failure to read the database or the container that is not a
    response with status 404, be it a response with another status or an
    error that is not a response error, on which the type assertion fails,
    makes the bootstrap step that reads it panic, and with it the
    constructor: at once when the database cannot be read, and after the
    database step has returned when the container cannot be read. *)
Theorem read_failure_panics (options : Options) (s s1 : S) (err : SdkError) :
  (forall message, err <> ResponseError StatusNotFound message) ->
  (ReadDatabase s = Some err ->
   (forall a : adapter, exists msg, createDatabaseIfNotExist a s = Panic msg) /\
   (exists msg, NewAdapterFromClient options s = Panic msg)) /\
  (ReadContainer s1 = Some err ->
   (forall a : adapter, exists msg, createCollectionIfNotExist a s1 = Panic msg) /\
   (createDatabaseIfNotExist
      {| containerName := ContainerName options; databaseName := DatabaseName options;
         filtered := false |} s = Done s1 ->
    exists msg, NewAdapterFromClient options s = Panic msg)).
Proof.
  intros Hnot.
  assert (Hdb : ReadDatabase s = Some err ->
                forall a : adapter, exists msg, createDatabaseIfNotExist a s = Panic msg).
  { intros Hread a. unfold createDatabaseIfNotExist. rewrite Hread.
    destruct err as [statusCode message|message]; [|eexists; reflexivity].
    destruct (Z.eqb_spec statusCode StatusNotFound) as [->|_]; [|eexists; reflexivity].
    now contradiction (Hnot message). }
  assert (Hcoll : ReadContainer s1 = Some err ->
                  forall a : adapter, exists msg, createCollectionIfNotExist a s1 = Panic msg).
  { intros Hread a. unfold createCollectionIfNotExist. rewrite Hread.
    destruct err as [statusCode message|message]; [|eexists; reflexivity].
    destruct (Z.eqb_spec statusCode StatusNotFound) as [->|_]; [|eexists; reflexivity].
    now contradiction (Hnot message). }
  split.
  - intros Hread. split; [now apply Hdb|].
    unfold NewAdapterFromClient.
    destruct (NewDatabase s (DatabaseName options)) as [e|]; [eexists; reflexivity|].
    destruct (NewContainer s (DatabaseName options) (ContainerName options)) as [e|];
      [eexists; reflexivity|].
    destruct (Hdb Hread {| containerName := ContainerName options;
                           databaseName := DatabaseName options; filtered := false |})
      as [msg Hmsg].
    rewrite Hmsg. eexists. reflexivity.
  - intros Hread. split; [now apply Hcoll|].
    intros Hstep. unfold NewAdapterFromClient.
    destruct (NewDatabase s (DatabaseName options)) as [e|]; [eexists; reflexivity|].
    destruct (NewContainer s (DatabaseName options) (ContainerName options)) as [e|];
      [eexists; reflexivity|].
    rewrite Hstep. simpl.
    destruct (Hcoll Hread {| containerName := ContainerName options;
                             databaseName := DatabaseName options; filtered := false |})
      as [msg Hmsg].
    rewrite Hmsg. eexists. reflexivity.
Qed.

End ConstructionFailures.

Lemma read_failure_panics_witness :
  (forall a : adapter, exists msg, createDatabaseIfNotExist a unreachableAccount = Panic msg) /\
  (exists msg, NewAdapterFromClient defaultOptions unreachableAccount = Panic msg).
Proof.
  apply (read_failure_panics defaultOptions unreachableAccount unreachableAccount
           (OtherError "dial tcp: connection refused")).
  - discriminate.
  - reflexivity.
Defined.
